(** * CCVI converter: a shallow embedding of [convert_to_ccvi] and
    [convert_from_ccvi] (file CCVI.Converter.py) and the properties of the
    codec that follow from the code.

    Layout of the development:
    - [Float64]: Python floats, as IEEE 754 binary64 values computed by the
      Standard Library's executable specification [SpecFloat];
    - [Py]: the exceptions the two functions can raise and a small error
      monad;
    - [Np]: the numpy pieces the code uses (an H x W x 4 [uint8] array,
      [reshape], [unique], [argwhere], strided slices, integer indexing);
    - [Ccvi]: the two functions themselves, on the dictionaries they build
      and read;
    - [Notions], [Examples], [Documents], [Claimed], [ClaimedDecoder]: the
      predicates of the statements, the inputs they are tried on, and the
      statements of the specification that the code is compared with;
    - [MoreNotions], [Ui]: further predicates, and the settings of the
      two windows (the slider of the converter; the info label, the zoom
      factor and the animation phase of the viewer, file CCVI.Viewer.py);
    - the lemmas on binary64 rounding, on the numpy operations, on the
      encoder and on the decoder, and the theorems on the codec and on
      the windows. *)

From Stdlib Require Import ZArith NArith Lia SpecFloat.
From Stdlib Require Import Strings.Byte.
From stdpp Require Import base tactics option list sorting.

Local Open Scope Z_scope.

(** ** Python floats *)

Module Float64.

Definition prec : Z := 53.
Definition emax : Z := 1024.

(** A Python [float]. Every value the interpreter builds is a valid
    binary64 number; [valid] says so for a value given from outside. *)
Definition float : Type := spec_float.
Definition valid (f : float) : bool := valid_binary prec emax f.

(** [float(n)] for a Python [int]: the nearest binary64 value, ties to
    even. *)
Definition of_int (n : Z) : float := binary_normalize prec emax n 0 false.

Definition sub (a b : float) : float := SFsub prec emax a b.
Definition mul (a b : float) : float := SFmul prec emax a b.
Definition div (a b : float) : float := SFdiv prec emax a b.

(** The literals of the source. *)
Definition f0 : float := S754_zero false.
Definition f1 : float := Eval vm_compute in of_int 1.
Definition f3 : float := Eval vm_compute in of_int 3.
Definition f255 : float := Eval vm_compute in of_int 255.
Definition fhalf : float := Eval vm_compute in div f1 (of_int 2).

(** The magnitude [m * 2^e] with its fraction dropped. *)
Definition magnitude (m : positive) (e : Z) : Z := Z.shiftl (Zpos m) e.

(** [int(f)]: truncation toward zero; [None] for a NaN or an infinity,
    where Python raises. *)
Definition to_int (f : float) : option Z :=
  match f with
  | S754_zero _ => Some 0
  | S754_finite s m e => Some (if s then - magnitude m e else magnitude m e)
  | S754_infinity _ => None
  | S754_nan => None
  end.

Definition is_nan (f : float) : bool :=
  match f with S754_nan => true | _ => false end.

(** [a <= b] on floats (false when either is a NaN). *)
Definition leb (a b : float) : bool := SFleb a b.

(** Notions used in the proofs about rounding. *)

(** The second half of [binary_round_aux]: the rounded mantissa is shifted
    once more (rounding may have carried into a 54th bit) and classified. *)
Definition round_finish (s : bool) (mx e : Z) : float :=
  let '(mrs, e') := shr_fexp prec emax mx e loc_Exact in
  match shr_m mrs with
  | Z0 => S754_zero s
  | Zpos m => if Z.leb e' (emax - prec) then S754_finite s m e' else S754_infinity s
  | Zneg _ => S754_nan
  end.

(** A float that is zero or finite, with its exponent and the size of its
    mantissa bounded. *)
Definition finite_within (d E : Z) (f : float) : Prop :=
  match f with
  | S754_zero _ => True
  | S754_finite _ m e => Zpos (digits2_pos m) <= d /\ e <= E
  | _ => False
  end.

(** A margin of error as the slider and the data model give it: a
    binary64 number between 0.0 and 1.0. *)
Definition in_unit_interval (m : float) : bool :=
  valid m && leb f0 m && leb m f1.

End Float64.

(** ** Python exceptions *)

Module Py.

(** The exceptions the two functions can raise. *)
Inductive exn : Set := KeyError | IndexError | ValueError | OverflowError.

Inductive result (T : Type) : Type :=
  | Ok (v : T)
  | Raise (e : exn).
Arguments Ok {T} v.
Arguments Raise {T} e.

Definition bind {T U : Type} (c : result T) (k : T -> result U) : result U :=
  match c with
  | Ok v => k v
  | Raise e => Raise e
  end.

Definition raises {T : Type} (c : result T) : Prop :=
  exists e, c = Raise e.

(** [d[key]] on a dictionary whose key may be missing. *)
Definition getitem {T : Type} (entry : option T) : result T :=
  match entry with
  | Some v => Ok v
  | None => Raise KeyError
  end.

(** [int(f)]: [ValueError] on a NaN, [OverflowError] on an infinity. *)
Definition int (f : Float64.float) : result Z :=
  match Float64.to_int f with
  | Some z => Ok z
  | None => Raise (if Float64.is_nan f then ValueError else OverflowError)
  end.

(** A [for] loop that threads a value through its body and stops at the
    first exception. *)
Fixpoint for_each {T S : Type} (body : S -> T -> result S) (s : S) (l : list T)
  : result S :=
  match l with
  | [] => Ok s
  | t :: l' => bind (body s t) (fun s' => for_each body s' l')
  end.

End Py.

Export Py.

Declare Scope py_scope.
Delimit Scope py_scope with py.
Notation "x <- c1 ;; c2" := (Py.bind c1 (fun x => c2))
  (at level 100, c1 at next level, right associativity) : py_scope.
Local Open Scope py_scope.

#[global] Instance exn_eq_dec : EqDecision exn.
Proof. solve_decision. Defined.

#[global] Instance byte_eq_dec : EqDecision byte := Byte.byte_eq_dec.

(** ** The numpy operations of the source *)

Module Np.

(** One cell [a[y, x, :]] of an H x W x 4 [uint8] array. *)
Record rgba : Set := Rgba { red : byte; green : byte; blue : byte; alpha : byte }.

(** The value of a [uint8] as a number. *)
Definition u8 (b : byte) : Z := Z.of_N (Byte.to_N b).

(** [a[y, x, :3]] *)
Definition rgb3 (p : rgba) : list byte := [red p; green p; blue p].

(** An array of shape [(rows, cols, 4)] and dtype [uint8]; [cell] is read
    only at [y < rows], [x < cols]. *)
Record ndarray : Type := Ndarray { rows : nat; cols : nat; cell : nat -> nat -> rgba }.

(** The index pairs [(y, x)] of the array in row-major order. *)
Definition indices (h w : nat) : list (nat * nat) :=
  y ← seq 0 h; (fun x => (y, x)) <$> seq 0 w.

Definition at_index (a : ndarray) (yx : nat * nat) : rgba := cell a yx.1 yx.2.

(** [a.reshape(-1, a.shape[2])]: the cells, row after row. *)
Definition reshape (a : ndarray) : list rgba :=
  at_index a <$> indices (rows a) (cols a).

(** Rows of four bytes are ordered lexicographically. *)
Definition rgba_compare (p q : rgba) : comparison :=
  match u8 (red p) ?= u8 (red q) with
  | Eq =>
      match u8 (green p) ?= u8 (green q) with
      | Eq =>
          match u8 (blue p) ?= u8 (blue q) with
          | Eq => u8 (alpha p) ?= u8 (alpha q)
          | c => c
          end
      | c => c
      end
  | c => c
  end.

Definition rgba_le (p q : rgba) : Prop := rgba_compare p q <> Gt.
Definition rgba_lt (p q : rgba) : Prop := rgba_compare p q = Lt.

#[global] Instance rgba_eq_dec : EqDecision rgba.
Proof. solve_decision. Defined.

#[global] Instance comparison_eq_dec : EqDecision comparison.
Proof. solve_decision. Defined.

#[global] Instance rgba_le_dec : RelDecision rgba_le.
Proof. intros p q. unfold rgba_le. apply _. Defined.

(** The rows that differ from their predecessor, [ar[1:] != ar[:-1]]. *)
Fixpoint changes (prev : rgba) (l : list rgba) : list rgba :=
  match l with
  | [] => []
  | p :: l' => if decide (p = prev) then changes p l' else p :: changes p l'
  end.

Definition drop_repeats (l : list rgba) : list rgba :=
  match l with
  | [] => []
  | p :: l' => p :: changes p l'
  end.

(** [np.unique(rows, axis=0)]: the distinct rows, sorted. *)
Definition unique (l : list rgba) : list rgba :=
  drop_repeats (merge_sort rgba_le l).

(** [np.all(a[:, :, :3] == color[:3], axis=2)] at one cell. *)
Definition mask (color : rgba) (p : rgba) : bool :=
  bool_decide (rgb3 p = rgb3 color).

(** [np.argwhere(mask)]: the index pairs where the mask holds, in row-major
    order. *)
Definition argwhere (a : ndarray) (color : rgba) : list (nat * nat) :=
  filter (fun yx => mask color (at_index a yx) = true) (indices (rows a) (cols a)).

(** [l[::k]] for a step [k >= 1]: the elements at positions 0, k, 2k, ...
    [skip] counts the elements still to pass over before the next one
    is taken. *)
Fixpoint slice_step_from {T : Type} (k skip : nat) (l : list T) : list T :=
  match l with
  | [] => []
  | t :: l' =>
      match skip with
      | O => t :: slice_step_from k (k - 1) l'
      | S skip' => slice_step_from k skip' l'
      end
  end.

Definition slice_step {T : Type} (k : nat) (l : list T) : list T :=
  slice_step_from k 0 l.

(** [np.zeros((h, w, 4), dtype=np.uint8)]; a negative dimension is a
    [ValueError]. *)
Definition zero_cell : rgba := Rgba "000" "000" "000" "000".

Definition zeros (h w : Z) : result ndarray :=
  if decide (0 <= h /\ 0 <= w)
  then Ok (Ndarray (Z.to_nat h) (Z.to_nat w) (fun _ _ => zero_cell))
  else Raise ValueError.

(** An integer subscript on an axis of length [n]: a negative [i] counts
    from the end, anything outside [-n, n) is an [IndexError]. *)
Definition index (n : nat) (i : Z) : result nat :=
  if decide (0 <= i < Z.of_nat n) then Ok (Z.to_nat i)
  else if decide (- Z.of_nat n <= i < 0) then Ok (Z.to_nat (i + Z.of_nat n))
  else Raise IndexError.

(** The value of [a[y, x, :3] = color] for a list [color]: three elements
    are stored as they are, one element is broadcast, any other length is a
    [ValueError]. *)
Definition broadcast3 (color : list byte) : result (byte * byte * byte) :=
  match color with
  | [c] => Ok (c, c, c)
  | [r; g; b] => Ok (r, g, b)
  | _ => Raise ValueError
  end.

Definition update (a : ndarray) (y x : nat) (f : rgba -> rgba) : ndarray :=
  Ndarray (rows a) (cols a)
    (fun y' x' => if decide (y' = y /\ x' = x) then f (cell a y x) else cell a y' x').

(** [a[y, x, :3] = (r, g, b)] and [a[y, x, 3] = v] on checked indices. *)
Definition set_rgb (a : ndarray) (y x : nat) (c : byte * byte * byte) : ndarray :=
  update a y x (fun p => Rgba c.1.1 c.1.2 c.2 (alpha p)).

Definition set_alpha (a : ndarray) (y x : nat) (v : byte) : ndarray :=
  update a y x (fun p => Rgba (red p) (green p) (blue p) v).

(** Storing a Python [int] in a [uint8] cell: a value outside [0, 255]
    is an [OverflowError] (numpy 2; earlier versions stored the value
    modulo 256 with a deprecation warning). *)
Definition to_uint8 (v : Z) : result byte :=
  match (if decide (0 <= v) then Byte.of_N (Z.to_N v) else None) with
  | Some b => Ok b
  | None => Raise OverflowError
  end.

(** [np.any(a[:, :, 3] < 255)] *)
Definition any_alpha_below_255 (a : ndarray) : bool :=
  existsb (fun yx => bool_decide (u8 (alpha (at_index a yx)) < 255))
    (indices (rows a) (cols a)).

(** The four bytes of a row read as one base-256 number: the
    lexicographic order is the order of these numbers. *)
Definition word (p : rgba) : Z :=
  ((u8 (red p) * 256 + u8 (green p)) * 256 + u8 (blue p)) * 256 + u8 (alpha p).

(** Row-major order on index pairs [(y, x)]. *)
Definition row_major_lt (a b : nat * nat) : Prop :=
  (a.1 < b.1)%nat \/ (a.1 = b.1 /\ (a.2 < b.2)%nat).

End Np.

Export Np.

(** ** The converter *)

Module Ccvi.
Import Float64.

(** The dictionaries of a [.ccvi] file. [json.dump] writes every key and
    [json.load] returns whatever the file holds, so a key may be missing on
    the reading side; a value that is present has the JSON type the writer
    gives it (an integer, a float, a list of byte-sized integers, a list of
    dictionaries). *)
Record vector : Type := Vector {
  vec_x : option Z;
  vec_y : option Z;
  vec_height : option float;
  vec_saturation : option float;
  vec_alpha : option float
}.

Record plane : Type := Plane {
  plane_color : option (list byte);
  plane_vectors : option (list vector)
}.

Record ccvi : Type := CcviData {
  ccvi_width : option Z;
  ccvi_height : option Z;
  ccvi_planes : option (list plane);
  ccvi_margin_error : option float
}.

(** *** [convert_to_ccvi] *)

(** [arr[y, x, :3].mean() / 255.0]: numpy sums the three bytes in float64
    and divides by their number. *)
Definition height_of (p : rgba) : float :=
  div (div (of_int (u8 (red p) + u8 (green p) + u8 (blue p))) f3) f255.

(** [(np.max(arr[y, x, :3]) - np.min(arr[y, x, :3])) / 255.0] *)
Definition saturation_of (p : rgba) : float :=
  let hi := Z.max (u8 (red p)) (Z.max (u8 (green p)) (u8 (blue p))) in
  let lo := Z.min (u8 (red p)) (Z.min (u8 (green p)) (u8 (blue p))) in
  div (of_int (hi - lo)) f255.

(** [arr[y, x, 3] / 255.0] *)
Definition alpha_of (p : rgba) : float := div (of_int (u8 (alpha p))) f255.

(** The dictionary appended for one sampled index pair [(y, x)]. *)
Definition sample (arr : ndarray) (yx : nat * nat) : vector :=
  let p := at_index arr yx in
  Vector (Some (Z.of_nat yx.2)) (Some (Z.of_nat yx.1))
    (Some (height_of p)) (Some (saturation_of p)) (Some (alpha_of p)).

(** [max(1, int(count * (1 - margin_error)))] *)
Definition num_vectors (count : nat) (margin_error : float) : result Z :=
  n <- Py.int (mul (of_int (Z.of_nat count)) (sub f1 margin_error));;
  Ok (Z.max 1 n).

(** [max(1, count // num_vectors)], the step of the slice. *)
Definition stride (count : nat) (nv : Z) : nat :=
  Z.to_nat (Z.max 1 (Z.of_nat count / nv)).

(** The body of the loop over [colors] for one colour: [None] when the
    mask is empty ([continue]), the plane otherwise. *)
Definition encode_plane (arr : ndarray) (margin_error : float) (color : rgba)
  : result (option plane) :=
  let mask_indices := argwhere arr color in
  if bool_decide (mask_indices = []) then Ok None
  else
    nv <- num_vectors (length mask_indices) margin_error;;
    let sampled_indices := slice_step (stride (length mask_indices) nv) mask_indices in
    Ok (Some (Plane (Some (rgb3 color)) (Some (sample arr <$> sampled_indices)))).

Fixpoint encode_planes (arr : ndarray) (margin_error : float) (colors : list rgba)
  : result (list plane) :=
  match colors with
  | [] => Ok []
  | color :: colors' =>
      p <- encode_plane arr margin_error color;;
      planes <- encode_planes arr margin_error colors';;
      Ok (match p with Some pl => pl :: planes | None => planes end)
  end.

(** [convert_to_ccvi] from the array of the opened image to the dictionary
    handed to [json.dump]. *)
Definition convert_to_ccvi (arr : ndarray) (margin_error : float) : result ccvi :=
  let colors := unique (reshape arr) in
  planes <- encode_planes arr margin_error colors;;
  Ok (CcviData (Some (Z.of_nat (cols arr))) (Some (Z.of_nat (rows arr)))
        (Some planes) (Some margin_error)).

(** *** [convert_from_ccvi] *)

(** The two assignments of the inner loop for one vector. *)
Definition write_vector (color : list byte) (canvas : ndarray) (vec : vector)
  : result ndarray :=
  x <- getitem (vec_x vec);;
  y <- getitem (vec_y vec);;
  i <- index (rows canvas) y;;
  j <- index (cols canvas) x;;
  c <- broadcast3 color;;
  let canvas := set_rgb canvas i j c in
  a <- getitem (vec_alpha vec);;
  n <- Py.int (mul a (of_int 255));;
  v <- to_uint8 n;;
  Ok (set_alpha canvas i j v).

Definition write_plane (canvas : ndarray) (pl : plane) : result ndarray :=
  color <- getitem (plane_color pl);;
  vectors <- getitem (plane_vectors pl);;
  for_each (write_vector color) canvas vectors.

(** The canvas after the loops over planes and vectors. *)
Definition replay (data : ccvi) : result ndarray :=
  width <- getitem (ccvi_width data);;
  height <- getitem (ccvi_height data);;
  canvas <- zeros height width;;
  planes <- getitem (ccvi_planes data);;
  for_each write_plane canvas planes.

(** The image handed to [img.save] and the extension chosen for it. *)
Inductive extension : Set := png | jpeg.

Inductive image : Type :=
  | RGBA_image (a : ndarray)
  | RGB_image (h w : nat) (px : nat -> nat -> byte * byte * byte).

(** [Image.fromarray(canvas, "RGBA").convert("RGB")] drops the alpha band. *)
Definition convert_RGB (a : ndarray) : image :=
  RGB_image (rows a) (cols a)
    (fun y x => (red (cell a y x), green (cell a y x), blue (cell a y x))).

Definition select_format (canvas : ndarray) : extension * image :=
  if any_alpha_below_255 canvas then (png, RGBA_image canvas)
  else (jpeg, convert_RGB canvas).

(** [convert_from_ccvi] from the loaded dictionary to the image it
    hands to [img.save] (reading the file and writing the image are not
    part of the embedding). *)
Definition convert_from_ccvi (data : ccvi) : result (extension * image) :=
  canvas <- replay data;;
  Ok (select_format canvas).

(** The size of an image and its pixel at [(y, x)] read as RGBA (an RGB
    image is opaque). *)
Definition image_size (img : image) : nat * nat :=
  match img with
  | RGBA_image a => (rows a, cols a)
  | RGB_image h w _ => (h, w)
  end.

Definition image_pixel (img : image) (y x : nat) : rgba :=
  match img with
  | RGBA_image a => cell a y x
  | RGB_image _ _ px => Rgba (px y x).1.1 (px y x).1.2 (px y x).2 "255"
  end.

End Ccvi.

Export Ccvi.

(** ** Notions used in the statements *)

Module Notions.
Import Float64.

(** The plane [convert_to_ccvi] appends for [color] when [num_vectors]
    evaluates to [nv]. *)
Definition plane_for (arr : ndarray) (color : rgba) (nv : Z) : plane :=
  let mask_indices := argwhere arr color in
  Plane (Some (rgb3 color))
    (Some (sample arr <$> slice_step (stride (length mask_indices) nv) mask_indices)).

Definition produced (arr : ndarray) (margin_error : Float64.float)
  (color : rgba) (pl : plane) : Prop :=
  argwhere arr color <> [] /\
  exists nv, num_vectors (length (argwhere arr color)) margin_error = Ok nv /\
             pl = plane_for arr color nv.

(** The index pairs of a list of vectors, as [(y, x)]. *)
Definition coordinates (vectors : list vector) : list (option Z * option Z) :=
  (fun v => (vec_y v, vec_x v)) <$> vectors.

Definition as_coordinates (l : list (nat * nat)) : list (option Z * option Z) :=
  (fun yx => (Some (Z.of_nat yx.1), Some (Z.of_nat yx.2))) <$> l.

(** The count of vectors in the plane of [color]: the population of the
    mask divided by the step of the slice, rounded up. *)
Definition ceiling_count (arr : ndarray) (m : float) (color : rgba) (pl : plane) : Prop :=
  let count := Z.of_nat (length (argwhere arr color)) in
  exists nv vectors,
    num_vectors (length (argwhere arr color)) m = Ok nv /\
    plane_color pl = Some (rgb3 color) /\
    plane_vectors pl = Some vectors /\
    let k := Z.max 1 (count / nv) in
    Z.of_nat (length vectors) = (count + k - 1) / k.

(** The vectors of the plane of [color] sample a non-empty, ordered
    selection of the cells of its mask, the first cell included. *)
Definition ordered_sample (arr : ndarray) (color : rgba) (pl : plane) : Prop :=
  exists vectors sampled first,
    plane_color pl = Some (rgb3 color) /\
    plane_vectors pl = Some vectors /\
    vectors <> [] /\
    coordinates vectors = as_coordinates sampled /\
    sampled `sublist_of` argwhere arr color /\
    NoDup (coordinates vectors) /\
    StronglySorted row_major_lt sampled /\
    head (argwhere arr color) = Some first /\
    head vectors = Some (sample arr first).

(** The cell a vector addresses on a canvas, when both subscripts are
    accepted. *)
Definition target (canvas : ndarray) (vec : vector) : option (nat * nat) :=
  match vec_y vec, vec_x vec with
  | Some y, Some x =>
      match index (rows canvas) y, index (cols canvas) x with
      | Ok i, Ok j => Some (i, j)
      | _, _ => None
      end
  | _, _ => None
  end.

Definition same_shape (h w : Z) (canvas : ndarray) : Prop :=
  rows canvas = Z.to_nat h /\ cols canvas = Z.to_nat w.

(** The keys [convert_from_ccvi] never reads, removed. *)
Definition forget_unread_vector (vec : vector) : vector :=
  Vector (vec_x vec) (vec_y vec) None None (vec_alpha vec).

Definition forget_unread_plane (pl : plane) : plane :=
  Plane (plane_color pl) (fmap (M:=list) forget_unread_vector <$> plane_vectors pl).

Definition forget_unread (data : ccvi) : ccvi :=
  CcviData (ccvi_width data) (ccvi_height data)
    (fmap (M:=list) forget_unread_plane <$> ccvi_planes data) None.

(** A document on which some subscript [d[key]] of the decoder finds no
    key, or whose colour cannot be stored in three channels. *)
Definition unreadable_vector (vec : vector) : Prop :=
  vec_x vec = None \/ vec_y vec = None \/ vec_alpha vec = None.

Definition unreadable_plane (pl : plane) : Prop :=
  plane_color pl = None \/
  plane_vectors pl = None \/
  (exists vectors vec,
     plane_vectors pl = Some vectors /\ vec ∈ vectors /\ unreadable_vector vec) \/
  (exists color vectors,
     plane_color pl = Some color /\ plane_vectors pl = Some vectors /\
     vectors <> [] /\ length color <> 1%nat /\ length color <> 3%nat).

Definition unreadable (data : ccvi) : Prop :=
  ccvi_width data = None \/
  ccvi_height data = None \/
  ccvi_planes data = None \/
  (exists planes pl,
     ccvi_planes data = Some planes /\ pl ∈ planes /\ unreadable_plane pl).

(** The canvas holds the cell of the array at [yx]. *)
Definition restored (arr canvas : ndarray) (yx : nat * nat) : Prop :=
  at_index canvas yx = at_index arr yx.

Definition shape_of (arr canvas : ndarray) : Prop :=
  rows canvas = rows arr /\ cols canvas = cols arr.

(** Colours, as lists of bytes, are ordered lexicographically. *)
Fixpoint color_compare (c d : list byte) : comparison :=
  match c, d with
  | [], [] => Eq
  | [], _ :: _ => Lt
  | _ :: _, [] => Gt
  | a :: c', b :: d' =>
      match u8 a ?= u8 b with
      | Eq => color_compare c' d'
      | r => r
      end
  end.

Definition color_le (c d : list byte) : Prop := color_compare c d <> Gt.

End Notions.

Export Notions.

(** ** Example inputs *)

Module Examples.
Import Float64.

(** [np.array] of a nested list of cells. *)
Definition array_of_rows (l : list (list rgba)) : ndarray :=
  Ndarray (length l) (length (default [] (head l)))
    (fun y x => default zero_cell (l !! y ≫= (.!! x))).

Definition the_data (r : result ccvi) : ccvi :=
  match r with
  | Ok data => data
  | Raise _ => CcviData None None None None
  end.

(** One row of five cells of one colour. *)
Definition five_in_a_row : ndarray :=
  let p := Rgba "001" "002" "003" "255" in array_of_rows [[p; p; p; p; p]].

Definition five_in_a_row_encoded : ccvi :=
  Eval vm_compute in the_data (convert_to_ccvi five_in_a_row fhalf).

(** A red cell followed by a blue cell. *)
Definition red_then_blue : ndarray :=
  array_of_rows [[Rgba "255" "000" "000" "255"; Rgba "000" "000" "255" "255"]].

Definition red_then_blue_encoded : ccvi :=
  Eval vm_compute in the_data (convert_to_ccvi red_then_blue f0).

(** Two cells of the same colour, one opaque and one transparent. *)
Definition same_rgb_two_alphas : ndarray :=
  array_of_rows [[Rgba "010" "020" "030" "255"; Rgba "010" "020" "030" "000"]].

Definition same_rgb_two_alphas_encoded : ccvi :=
  Eval vm_compute in the_data (convert_to_ccvi same_rgb_two_alphas f0).

(** The 2 x 2 array of the end-to-end example: a red row over a
    half-transparent blue row. *)
Definition two_by_two : ndarray :=
  array_of_rows [[Rgba "255" "000" "000" "255"; Rgba "255" "000" "000" "255"];
                 [Rgba "000" "000" "255" "128"; Rgba "000" "000" "255" "128"]].

Definition two_by_two_encoded : ccvi :=
  Eval vm_compute in the_data (convert_to_ccvi two_by_two f0).

End Examples.

Module Documents.
Import Float64.

Definition the_canvas (r : result ndarray) : ndarray :=
  match r with
  | Ok canvas => canvas
  | Raise _ => Ndarray 0 0 (fun _ _ => zero_cell)
  end.

Definition quarter : float := Eval vm_compute in div f1 (of_int 4).

(** A canvas two cells wide and one cell high with one opaque red vector
    at [x = -1]. *)
Definition negative_x : ccvi :=
  CcviData (Some 2) (Some 1)
    (Some [Plane (Some ["255"; "000"; "000"]%byte)
             (Some [Vector (Some (-1)) (Some 0) (Some f0) (Some f0) (Some f1)])])
    (Some f0).

(** The same canvas with the vector at [x = 2], one past the last
    column. *)
Definition x_is_width : ccvi :=
  CcviData (Some 2) (Some 1)
    (Some [Plane (Some ["255"; "000"; "000"]%byte)
             (Some [Vector (Some 2) (Some 0) (Some f0) (Some f0) (Some f1)])])
    (Some f0).

(** A one-cell document without [margin_error], whose vector has neither
    [height] nor [saturation]. *)
Definition unread_keys_missing : ccvi :=
  CcviData (Some 1) (Some 1)
    (Some [Plane (Some ["255"; "000"; "000"]%byte)
             (Some [Vector (Some 0) (Some 0) None None (Some f1)])])
    None.

(** A one-cell document whose vector has no [alpha]. *)
Definition alpha_missing : ccvi :=
  CcviData (Some 1) (Some 1)
    (Some [Plane (Some ["255"; "000"; "000"]%byte)
             (Some [Vector (Some 0) (Some 0) (Some f0) (Some f0) None])])
    (Some f0).

(** A one-cell document whose vector has [alpha = 0.25]:
    [0.25 * 255 = 63.75]. *)
Definition quarter_alpha : ccvi :=
  CcviData (Some 1) (Some 1)
    (Some [Plane (Some ["255"; "000"; "000"]%byte)
             (Some [Vector (Some 0) (Some 0) (Some f0) (Some f0) (Some quarter)])])
    (Some f0).

Definition quarter_alpha_vector : vector :=
  Vector (Some 0) (Some 0) (Some f0) (Some f0) (Some quarter).

Definition blank_cell : ndarray := Ndarray 1 1 (fun _ _ => zero_cell).

Definition two_by_two_canvas : ndarray :=
  Eval vm_compute in the_canvas (replay Examples.two_by_two_encoded).

End Documents.

(** ** Statements of the specification that the code is compared with *)

Module Claimed.
Import Float64.

(** The number of vectors the stride formula predicts for a mask of
    [count] cells:
    [max(1, count // max(1, count // max(1, floor(count * (1 - m)))))]. *)
Definition predicted_count (count : nat) (m : float) : result Z :=
  n <- Py.int (mul (of_int (Z.of_nat count)) (sub f1 m));;
  Ok (Z.max 1 (Z.of_nat count / Z.max 1 (Z.of_nat count / Z.max 1 n))).

Definition stride_formula_holds (arr : ndarray) (m : float) : Prop :=
  forall data planes color pl vectors,
    convert_to_ccvi arr m = Ok data ->
    ccvi_planes data = Some planes ->
    pl ∈ planes ->
    plane_color pl = Some (rgb3 color) ->
    plane_vectors pl = Some vectors ->
    predicted_count (length (argwhere arr color)) m = Ok (Z.of_nat (length vectors)).

(** The distinct elements of a list in the order in which each is first
    met. *)
Fixpoint first_seen {T : Type} `{EqDecision T} (seen l : list T) : list T :=
  match l with
  | [] => []
  | t :: l' =>
      if decide (t ∈ seen) then first_seen seen l'
      else t :: first_seen (t :: seen) l'
  end.

Definition first_occurrence_order (arr : ndarray) : list (list byte) :=
  first_seen [] (rgb3 <$> reshape arr).

Definition planes_in_first_occurrence_order (arr : ndarray) (m : float) : Prop :=
  forall data planes,
    convert_to_ccvi arr m = Ok data ->
    ccvi_planes data = Some planes ->
    plane_color <$> planes = Some <$> first_occurrence_order arr.

Definition plane_colors_distinct (arr : ndarray) (m : float) : Prop :=
  forall data planes,
    convert_to_ccvi arr m = Ok data ->
    ccvi_planes data = Some planes ->
    NoDup (plane_color <$> planes).

End Claimed.

Module ClaimedDecoder.
Import Float64.

(** A vector outside [[0, width) x [0, height)] makes decoding fail. *)
Definition outside_canvas (w h x y : Z) : Prop := ~ (0 <= x < w /\ 0 <= y < h).

Definition out_of_bounds_rejected (data : ccvi) : Prop :=
  forall w h planes pl vectors vec x y,
    ccvi_width data = Some w -> ccvi_height data = Some h ->
    ccvi_planes data = Some planes ->
    pl ∈ planes -> plane_vectors pl = Some vectors -> vec ∈ vectors ->
    vec_x vec = Some x -> vec_y vec = Some y ->
    outside_canvas w h x y ->
    raises (convert_from_ccvi data).

(** Every required field is present, with a colour of three bytes. *)
Definition complete_vector (vec : vector) : Prop :=
  is_Some (vec_x vec) /\ is_Some (vec_y vec) /\ is_Some (vec_height vec) /\
  is_Some (vec_saturation vec) /\ is_Some (vec_alpha vec).

Definition complete_plane (pl : plane) : Prop :=
  (exists color, plane_color pl = Some color /\ length color = 3%nat) /\
  (exists vectors, plane_vectors pl = Some vectors /\ Forall complete_vector vectors).

Definition complete (data : ccvi) : Prop :=
  is_Some (ccvi_width data) /\ is_Some (ccvi_height data) /\
  is_Some (ccvi_margin_error data) /\
  (exists planes, ccvi_planes data = Some planes /\ Forall complete_plane planes).

Definition incomplete_rejected (data : ccvi) : Prop :=
  ~ complete data -> raises (convert_from_ccvi data).

(** [round(f)]: the nearest integer, a tie going to the even one. *)
Definition round_to_nearest (f : float) : option Z :=
  match f with
  | S754_zero _ => Some 0
  | S754_finite s m e =>
      let n :=
        if decide (0 <= e) then Zpos m * 2 ^ e
        else
          let d := 2 ^ (- e) in
          let q := Zpos m / d in
          let r := Zpos m mod d in
          if decide (2 * r < d) then q
          else if decide (d < 2 * r) then q + 1
          else if Z.even q then q else q + 1 in
      Some (if s then - n else n)
  | S754_infinity _ => None
  | S754_nan => None
  end.

Definition alpha_rounded (data : ccvi) : Prop :=
  forall canvas planes pl vectors vec a yx n,
    replay data = Ok canvas ->
    ccvi_planes data = Some planes ->
    pl ∈ planes -> plane_vectors pl = Some vectors -> vec ∈ vectors ->
    vec_alpha vec = Some a ->
    target canvas vec = Some yx ->
    round_to_nearest (mul a (of_int 255)) = Some n ->
    u8 (alpha (at_index canvas yx)) = n.

End ClaimedDecoder.

(** ** Further notions used in the statements *)

Module MoreNotions.
Import Float64.

(** A vector of a plane of colour [color] is the sample of a cell of the
    array of that colour. *)
Definition samples_cell_of (arr : ndarray) (color : list byte) (v : vector) : Prop :=
  exists y x, (y < rows arr)%nat /\ (x < cols arr)%nat /\
              rgb3 (cell arr y x) = color /\ v = sample arr (y, x).

(** No two cells of the array have the same RGB and different alpha. *)
Definition alpha_determined_by_rgb (arr : ndarray) : Prop :=
  forall p q, p ∈ reshape arr -> q ∈ reshape arr -> rgb3 p = rgb3 q -> p = q.

(** The numbers of the stride sample of the plane of [color]. *)
Definition stride_bounds (arr : ndarray) (m : float) (color : rgba) (pl : plane) : Prop :=
  let mask_indices := argwhere arr color in
  let count := length mask_indices in
  exists nv vectors,
    num_vectors count m = Ok nv /\
    plane_vectors pl = Some vectors /\
    let k := stride count nv in
    let n := length vectors in
    (1 <= n <= count)%nat /\
    ((n - 1) * k < count <= n * k)%nat /\
    (nv <= Z.of_nat count -> nv <= Z.of_nat n) /\
    (forall i : nat, vectors !! i = sample arr <$> mask_indices !! (i * k)%nat).

(** The plane at position [i] of a document. *)
Definition plane_at (data : ccvi) (i : nat) : plane :=
  default (Plane None None) (default [] (ccvi_planes data) !! i).

(** The canvas holds at [yx] the cell of the array or nothing yet. *)
Definition restored_or_blank (arr canvas : ndarray) (yx : nat * nat) : Prop :=
  at_index canvas yx = at_index arr yx \/ at_index canvas yx = zero_cell.

(** What the decoder requires of a document while it fills the canvas:
    the canvas has a size, every key it reads is there, every subscript
    is in [[-n, n)], every alpha gives a byte, and the colour of a plane
    that has vectors has one or three elements. *)
Definition accepted_vector (h w : Z) (vec : vector) : Prop :=
  exists x y a n,
    vec_x vec = Some x /\ vec_y vec = Some y /\
    - h <= y < h /\ - w <= x < w /\
    vec_alpha vec = Some a /\
    to_int (mul a (of_int 255)) = Some n /\ 0 <= n <= 255.

Definition accepted_plane (h w : Z) (pl : plane) : Prop :=
  exists color vectors,
    plane_color pl = Some color /\ plane_vectors pl = Some vectors /\
    Forall (accepted_vector h w) vectors /\
    (vectors = [] \/ length color = 1%nat \/ length color = 3%nat).

Definition accepted (data : ccvi) : Prop :=
  exists w h planes,
    ccvi_width data = Some w /\ ccvi_height data = Some h /\
    0 <= h /\ 0 <= w /\
    ccvi_planes data = Some planes /\
    Forall (accepted_plane h w) planes.

End MoreNotions.

(** ** The settings of the two windows *)

Module Ui.
Import Float64.

Definition add (a b : float) : float := SFadd prec emax a b.
Definition ltb (a b : float) : bool := SFltb a b.

(** More literals of the sources; a decimal literal denotes the binary64
    number nearest to it, which is also the correctly rounded quotient of
    the two integers it is a ratio of. *)
Definition f100 : float := Eval vm_compute in of_int 100.
Definition f10 : float := Eval vm_compute in of_int 10.
Definition f0_1 : float := Eval vm_compute in div f1 f10.
Definition f1_2 : float := Eval vm_compute in div (of_int 12) f10.

(** [min(a, b)] and [max(a, b)] of two arguments: the first one unless the
    second is strictly smaller, respectively strictly larger. *)
Definition py_min (a b : float) : float := if ltb b a then b else a.
Definition py_max (a b : float) : float := if ltb a b then b else a.

(** *** [CCVIConverterUI] (CCVI.Converter.py) *)

Inductive slider_text : Set := DEVOURER_OF_DRIVES | POBODYS_NERFECT | MUDDLED_HELL.

(** [update_slider_label] for the slider at [val]: the new [margin_error]
    and the text of the label. *)
Definition update_slider_label (val : Z) : float * slider_text :=
  (div (of_int val) f100,
   if decide (val < 25) then DEVOURER_OF_DRIVES
   else if decide (val < 75) then POBODYS_NERFECT
   else MUDDLED_HELL).

(** *** [CCVIViewer] (CCVI.Viewer.py) *)

(** The numbers [update_info] puts in the info label: the dimensions, the
    number of planes, the total number of vectors and the margin (["N/A"]
    when the key is missing). *)
Record info : Type := Info {
  info_width : Z;
  info_height : Z;
  info_planes : nat;
  info_vectors : nat;
  info_margin : option float
}.

(** [sum(len(plane['vectors']) for plane in planes)] *)
Fixpoint total_vectors (planes : list plane) : result nat :=
  match planes with
  | [] => Ok 0%nat
  | pl :: planes' =>
      vectors <- getitem (plane_vectors pl);;
      rest <- total_vectors planes';;
      Ok (length vectors + rest)%nat
  end.

(** [update_info] on a loaded document that is not empty (an empty one
    leaves the label as it is). *)
Definition update_info (data : ccvi) : result info :=
  planes <- getitem (ccvi_planes data);;
  total <- total_vectors planes;;
  width <- getitem (ccvi_width data);;
  height <- getitem (ccvi_height data);;
  Ok (Info width height (length planes) total (ccvi_margin_error data)).

(** [zoom_in], [zoom_out] and [reset_view] on [zoom_factor]. *)
Definition zoom_in (zoom_factor : float) : float := py_min f10 (mul zoom_factor f1_2).
Definition zoom_out (zoom_factor : float) : float := py_max f0_1 (div zoom_factor f1_2).
Definition reset_view : float := f1.

(** The zoom factor after a sequence of presses of the three buttons,
    from the initial [1.0]. *)
Inductive button : Set := ZoomIn | ZoomOut | ResetView.

Definition press (zoom_factor : float) (b : button) : float :=
  match b with
  | ZoomIn => zoom_in zoom_factor
  | ZoomOut => zoom_out zoom_factor
  | ResetView => reset_view
  end.

Definition zoom_after (presses : list button) : float := foldl press f1 presses.

#[global] Instance spec_float_eq_dec : EqDecision spec_float.
Proof. solve_decision. Defined.

(** The zoom factors the buttons lead to, found by following them from
    [1.0] until nothing new appears. *)
Fixpoint explore (fuel : nat) (todo seen : list float) : list float :=
  match fuel with
  | O => seen
  | S fuel' =>
      match todo with
      | [] => seen
      | z :: todo' =>
          if bool_decide (z ∈ seen) then explore fuel' todo' seen
          else explore fuel' (zoom_in z :: zoom_out z :: todo') (z :: seen)
      end
  end.

Definition zoom_states : list float := Eval vm_compute in explore 2000 [f1] [].

(** The percentage [apply_zoom] shows when an image is loaded:
    [int(zoom_factor * 100)]. *)
Definition zoom_percent (zoom_factor : float) : result Z :=
  Py.int (mul zoom_factor f100).

(** [math.pi] and [on_animation_frame] on [animation_phase] (the integer
    [0] it starts from and is reset to adds like [0.0]). *)
Definition pi : float := S754_finite false 7074237752028440 (-51).

Definition on_animation_frame (animation_phase : float) : float :=
  let phase := add animation_phase f0_1 in
  if ltb (mul (of_int 2) pi) phase then f0 else phase.

(** The phase after a number of timer ticks. *)
Definition phase_after (frames : nat) : float :=
  Nat.iter frames on_animation_frame f0.

End Ui.

(** ** The binary64 facts the codec relies on *)

Section Float64Facts.
Import Float64.

Lemma digits2_pos_size (p : positive) : digits2_pos p = Pos.size p.
Proof. induction p as [p IH|p IH|]; simpl; congruence. Qed.

Lemma digits2_pos_iter_xO (p d : positive) :
  digits2_pos (Pos.iter xO p d) = (digits2_pos p + d)%positive.
Proof.
  induction d as [|d IH] using Pos.peano_ind.
  - simpl. lia.
  - rewrite Pos.iter_succ. simpl. rewrite IH. lia.
Qed.

Lemma Zpos_iter_xO (p d : positive) :
  Zpos (Pos.iter xO p d) = Zpos p * 2 ^ Zpos d.
Proof.
  induction d as [|d IH] using Pos.peano_ind.
  - simpl. lia.
  - rewrite Pos.iter_succ, Pos2Z.inj_xO, IH, Pos2Z.inj_succ, Z.pow_succ_r; lia.
Qed.

Lemma digits2_pos_below (p : positive) (k : Z) :
  0 <= k -> Zpos p < 2 ^ k -> Zpos (digits2_pos p) <= k.
Proof.
  intros Hk Hp. rewrite digits2_pos_size.
  pose proof (Pos.size_le p) as Hs.
  assert (Hz : 2 ^ Zpos (Pos.size p) <= 2 * Zpos p).
  { change 2 with (Zpos 2) at 1. rewrite <- Pos2Z.inj_pow. lia. }
  destruct (Z.le_gt_cases (Zpos (Pos.size p)) k) as [|Hgt]; [done|].
  assert (2 ^ (k + 1) <= 2 ^ Zpos (Pos.size p)) by (apply Z.pow_le_mono_r; lia).
  rewrite Z.pow_add_r in * by lia. lia.
Qed.

Lemma binary_round_aux_eq (s : bool) (mx ex : Z) (lx : location) :
  binary_round_aux prec emax s mx ex lx =
  let '(mrs, e) := shr_fexp prec emax mx ex lx in
  round_finish s (round_nearest_even (shr_m mrs) (loc_of_shr_record mrs)) e.
Proof. reflexivity. Qed.

Lemma shr_fexp_canonical (m : positive) (e : Z) :
  digits2_pos m = 53%positive -> -1074 <= e ->
  shr_fexp prec emax (Zpos m) e loc_Exact
  = ({| shr_m := Zpos m; shr_r := false; shr_s := false |}, e).
Proof.
  intros Hd He.
  unfold shr_fexp, Zdigits2, fexp, SpecFloat.emin, prec, emax. rewrite Hd.
  replace (Z.max (53 + e - 53) (3 - 1024 - 53) - e) with 0 by lia.
  reflexivity.
Qed.

Lemma round_finish_canonical (s : bool) (m : positive) (e : Z) :
  digits2_pos m = 53%positive -> -1074 <= e <= 971 ->
  round_finish s (Zpos m) e = S754_finite s m e.
Proof.
  intros Hd He. unfold round_finish. rewrite shr_fexp_canonical by lia.
  simpl. unfold prec, emax. destruct (Z.leb_spec e (1024 - 53)); [done|lia].
Qed.

(** A mantissa of exactly 53 bits with a representable exponent is left
    untouched by rounding. *)
Lemma binary_round_aux_canonical (s : bool) (m : positive) (e : Z) :
  digits2_pos m = 53%positive -> -1074 <= e <= 971 ->
  binary_round_aux prec emax s (Zpos m) e loc_Exact = S754_finite s m e.
Proof.
  intros Hd He. rewrite binary_round_aux_eq, shr_fexp_canonical by lia.
  apply round_finish_canonical; done.
Qed.

(** [float(n)] is exact below [2^53]: the mantissa is [n] shifted up to
    53 bits. *)
Lemma of_int_exact (p : positive) :
  Zpos p < 2 ^ 53 ->
  exists (m : positive) (e : Z),
    of_int (Zpos p) = S754_finite false m e /\
    digits2_pos m = 53%positive /\ -52 <= e <= 0 /\
    Zpos m = Zpos p * 2 ^ (- e).
Proof.
  intros Hp.
  pose proof (digits2_pos_below p 53 ltac:(lia) Hp) as Hd.
  unfold of_int, binary_normalize, binary_round, shl_align.
  unfold fexp, SpecFloat.emin, prec, emax.
  replace (Z.max (Zpos (digits2_pos p) + 0 - 53) (3 - 1024 - 53) - 0)
    with (Zpos (digits2_pos p) - 53) by lia.
  replace (Z.max (Zpos (digits2_pos p) + 0 - 53) (3 - 1024 - 53))
    with (Zpos (digits2_pos p) - 53) by lia.
  destruct (Zpos (digits2_pos p) - 53) as [|q|q] eqn:Hq; [|lia|].
  - exists p, 0. split; [|split; [|split]]; [|lia..].
    apply (binary_round_aux_canonical false p 0); lia.
  - exists (Pos.iter xO p q), (Zneg q).
    assert (Hdq : digits2_pos (Pos.iter xO p q) = 53%positive)
      by (rewrite digits2_pos_iter_xO; lia).
    split; [|split; [|split]]; [|lia|lia|].
    + apply (binary_round_aux_canonical false (Pos.iter xO p q) (Zneg q)); lia.
    + rewrite Zpos_iter_xO. reflexivity.
Qed.

Lemma iter_pos_shr_1_xO (d : positive) (m : positive) :
  SpecFloat.iter_pos shr_1 d
    {| shr_m := Zpos (Pos.iter xO m d); shr_r := false; shr_s := false |}
  = {| shr_m := Zpos m; shr_r := false; shr_s := false |}.
Proof.
  revert m. induction d as [d IH|d IH|]; intros m; simpl.
  - rewrite IH. apply IH.
  - rewrite IH. apply IH.
  - reflexivity.
Qed.

(** Multiplying a 53-bit value by [1.0] returns it unchanged. *)
Lemma mul_one_exact (m : positive) (e : Z) :
  digits2_pos m = 53%positive -> -52 <= e <= 0 ->
  mul (S754_finite false m e) f1 = S754_finite false m e.
Proof.
  intros Hd He.
  change f1 with (S754_finite false (Pos.iter xO 1%positive 52) (-52)).
  unfold mul, SFmul. rewrite Pos.mul_comm.
  change (Pos.iter xO 1%positive 52 * m)%positive with (Pos.iter xO m 52).
  rewrite binary_round_aux_eq.
  assert (Hshr : shr_fexp prec emax (Zpos (Pos.iter xO m 52)) (e + -52) loc_Exact
                 = ({| shr_m := Zpos m; shr_r := false; shr_s := false |}, e)).
  { unfold shr_fexp, Zdigits2, fexp, SpecFloat.emin, prec, emax.
    rewrite digits2_pos_iter_xO, Hd.
    replace (Z.max (Zpos (53 + 52) + (e + -52) - 53) (3 - 1024 - 53) - (e + -52))
      with 52 by lia.
    unfold shr, shr_record_of_loc. rewrite iter_pos_shr_1_xO. f_equal. lia. }
  rewrite Hshr. cbn [shr_m loc_of_shr_record round_nearest_even].
  apply round_finish_canonical; [done|lia].
Qed.

(** [int(n * (1 - 0.0))] is [n], and [int(n * (1 - 1.0))] is [0], for a
    count [n] below [2^53]. *)
Lemma to_int_scaled_zero_error (n : Z) :
  0 < n < 2 ^ 53 -> to_int (mul (of_int n) (sub f1 f0)) = Some n.
Proof.
  intros Hn. destruct n as [|p|p]; try lia.
  destruct (of_int_exact p ltac:(lia)) as (m & e & -> & Hd & He & Hm).
  change (sub f1 f0) with f1. rewrite mul_one_exact by done.
  unfold to_int, magnitude. f_equal.
  rewrite Z.shiftl_div_pow2, Hm by lia.
  apply Z.div_mul. apply Z.pow_nonzero; lia.
Qed.

Lemma to_int_scaled_full_error (n : Z) :
  0 < n < 2 ^ 53 -> to_int (mul (of_int n) (sub f1 f1)) = Some 0.
Proof.
  intros Hn. destruct n as [|p|p]; try lia.
  destruct (of_int_exact p ltac:(lia)) as (m & e & -> & _).
  reflexivity.
Qed.

End Float64Facts.

(** ** Rounding never overflows on the operands of the codec *)

Section Float64Bounds.
Import Float64.

Lemma Zpos_below_digits (p : positive) : Zpos p < 2 ^ Zpos (digits2_pos p).
Proof.
  rewrite digits2_pos_size. pose proof (Pos.size_gt p) as Hs.
  change 2 with (Zpos 2). rewrite <- Pos2Z.inj_pow. lia.
Qed.

Lemma Zdigits2_below (m : Z) : 0 <= m -> m < 2 ^ Zdigits2 m.
Proof.
  intros Hm. destruct m as [|p|p]; [done| |lia]. apply Zpos_below_digits.
Qed.

Lemma Zdigits2_le (m k : Z) : 0 <= m -> 0 <= k -> m < 2 ^ k -> Zdigits2 m <= k.
Proof.
  intros Hm Hk Hlt. destruct m as [|p|p]; [done| |lia].
  by apply digits2_pos_below.
Qed.

Lemma shr_1_bound (mrs : shr_record) (k : Z) :
  0 <= k -> 0 <= shr_m mrs < 2 ^ k ->
  0 <= shr_m (shr_1 mrs) < 2 ^ Z.max 0 (k - 1).
Proof.
  intros Hk Hm. destruct (decide (k = 0)) as [->|Hk0].
  - destruct mrs as [m r s]. simpl in *. assert (m = 0) as -> by lia. done.
  - rewrite Z.max_r by lia.
    replace k with (Z.succ (k - 1)) in Hm by lia.
    rewrite Z.pow_succ_r in Hm by lia.
    destruct mrs as [m r s]. simpl in *.
    assert (0 < 2 ^ (k - 1)) by (apply Z.pow_pos_nonneg; lia).
    destruct m as [|[p|p|]|]; simpl; lia.
Qed.

Lemma iter_shr_1_bound (p : positive) (mrs : shr_record) (k : Z) :
  0 <= k -> 0 <= shr_m mrs < 2 ^ k ->
  0 <= shr_m (SpecFloat.iter_pos shr_1 p mrs) < 2 ^ Z.max 0 (k - Zpos p).
Proof.
  revert mrs k. induction p as [p IH|p IH|]; intros mrs k Hk Hm; simpl.
  - pose proof (shr_1_bound mrs k Hk Hm) as H1.
    pose proof (IH _ (Z.max 0 (k - 1)) ltac:(lia) H1) as H2.
    pose proof (IH _ (Z.max 0 (Z.max 0 (k - 1) - Zpos p)) ltac:(lia) H2) as H3.
    replace (Z.max 0 (k - Zpos p~1))
      with (Z.max 0 (Z.max 0 (Z.max 0 (k - 1) - Zpos p) - Zpos p)) by lia.
    done.
  - pose proof (IH _ k Hk Hm) as H2.
    pose proof (IH _ (Z.max 0 (k - Zpos p)) ltac:(lia) H2) as H3.
    replace (Z.max 0 (k - Zpos p~0))
      with (Z.max 0 (Z.max 0 (k - Zpos p) - Zpos p)) by lia.
    done.
  - by apply shr_1_bound.
Qed.

Lemma shr_m_of_loc (m : Z) (l : location) : shr_m (shr_record_of_loc m l) = m.
Proof. by destruct l as [|[]]. Qed.

(** The first half of rounding: the mantissa is brought below [2^53] and
    the exponent becomes the larger of the old one and the canonical
    one. *)
Lemma shr_fexp_bound (m e : Z) (l : location) :
  0 <= m ->
  0 <= shr_m (shr_fexp prec emax m e l).1 < 2 ^ 53 /\
  (shr_fexp prec emax m e l).2 = Z.max e (fexp prec emax (Zdigits2 m + e)).
Proof.
  intros Hm. unfold shr_fexp, shr.
  pose proof (Zdigits2_below m Hm) as Hlt.
  assert (Hd : 0 <= Zdigits2 m) by (destruct m; simpl; lia).
  assert (Hf : Zdigits2 m + e - 53 <= fexp prec emax (Zdigits2 m + e))
    by (unfold fexp, prec; lia).
  destruct (fexp prec emax (Zdigits2 m + e) - e) as [|p|p] eqn:Hn; simpl.
  - rewrite shr_m_of_loc. split; [|lia]. split; [done|].
    eapply Z.lt_le_trans; [exact Hlt|]. apply Z.pow_le_mono_r; lia.
  - split; [|lia].
    pose proof (iter_shr_1_bound p (shr_record_of_loc m l) (Zdigits2 m) Hd) as Hb.
    rewrite shr_m_of_loc in Hb. specialize (Hb (conj Hm Hlt)).
    split; [lia|]. eapply Z.lt_le_trans; [apply Hb|].
    apply Z.pow_le_mono_r; lia.
  - rewrite shr_m_of_loc. split; [|lia]. split; [done|].
    eapply Z.lt_le_trans; [exact Hlt|]. apply Z.pow_le_mono_r; lia.
Qed.

Lemma round_nearest_even_bound (m : Z) (l : location) :
  m <= round_nearest_even m l <= m + 1.
Proof. destruct l as [|[]]; simpl; [lia|destruct (Z.even m); lia|lia..]. Qed.

Lemma round_finish_finite (s : bool) (m e : Z) :
  0 <= m <= 2 ^ 53 -> -1074 <= e <= 970 ->
  finite_within 53 (e + 1) (round_finish s m e).
Proof.
  intros Hm He. unfold round_finish.
  destruct (shr_fexp_bound m e loc_Exact ltac:(lia)) as [Hb He'].
  destruct (shr_fexp prec emax m e loc_Exact) as [mrs e']. simpl in *.
  assert (Hd : Zdigits2 m <= 54).
  { apply Zdigits2_le; [lia..|]. change (2 ^ 54) with (2 * 2 ^ 53). lia. }
  assert (He'' : e' <= e + 1) by (unfold fexp, SpecFloat.emin, prec, emax in He'; lia).
  destruct (shr_m mrs) as [|p|p] eqn:Hp; [done| |lia].
  unfold emax, prec. rewrite (proj2 (Z.leb_le e' (1024 - 53))) by lia.
  simpl. split; [|done]. apply (digits2_pos_below p 53); lia.
Qed.

Lemma binary_round_aux_finite (s : bool) (m : positive) (e : Z) (l : location) :
  e <= 969 -> Zpos (digits2_pos m) + e <= 1022 ->
  finite_within 53 (Z.max (Z.max e (Zpos (digits2_pos m) + e - 53)) (-1074) + 1)
    (binary_round_aux prec emax s (Zpos m) e l).
Proof.
  intros He Hd. rewrite binary_round_aux_eq.
  destruct (shr_fexp_bound (Zpos m) e l ltac:(lia)) as [Hb He'].
  destruct (shr_fexp prec emax (Zpos m) e l) as [mrs e']. simpl in *.
  pose proof (round_nearest_even_bound (shr_m mrs) (loc_of_shr_record mrs)) as Hr.
  unfold fexp, SpecFloat.emin, prec, emax in He'.
  pose proof (round_finish_finite s
    (round_nearest_even (shr_m mrs) (loc_of_shr_record mrs)) e'
    ltac:(lia) ltac:(lia)) as Hfin.
  destruct (round_finish s _ e') as [| | |s' m' e'']; simpl in *; try done.
  split; [tauto|lia].
Qed.

Lemma finite_within_weaken (d d' E E' : Z) (f : float) :
  d <= d' -> E <= E' -> finite_within d E f -> finite_within d' E' f.
Proof. intros Hd HE. destruct f as [| | |s m e]; simpl; [done..|lia]. Qed.

Lemma finite_within_to_int (d E : Z) (f : float) :
  finite_within d E f -> exists z, to_int f = Some z.
Proof. destruct f; simpl; [by eexists|done..|by eexists]. Qed.

Lemma digits2_pos_mul (a b : positive) :
  Zpos (digits2_pos (a * b)) <= Zpos (digits2_pos a) + Zpos (digits2_pos b).
Proof.
  apply digits2_pos_below; [lia|].
  pose proof (Zpos_below_digits a). pose proof (Zpos_below_digits b).
  rewrite Z.pow_add_r, Pos2Z.inj_mul by lia.
  apply Z.mul_lt_mono_nonneg; lia.
Qed.

Lemma shl_align_bound (p : positive) (e e' : Z) :
  (shl_align p e e').2 <= e /\
  Zpos (digits2_pos (shl_align p e e').1) + (shl_align p e e').2
  = Zpos (digits2_pos p) + e.
Proof.
  unfold shl_align. destruct (e' - e) as [|d|d] eqn:Hd; simpl; [lia..|].
  rewrite digits2_pos_iter_xO. lia.
Qed.

Lemma binary_round_finite (s : bool) (p : positive) (e : Z) :
  e <= 969 -> Zpos (digits2_pos p) + e <= 1022 ->
  finite_within 53 (Z.max (Z.max e (Zpos (digits2_pos p) + e - 53)) (-1074) + 1)
    (binary_round prec emax s p e).
Proof.
  intros He Hd. unfold binary_round.
  destruct (shl_align_bound p e (fexp prec emax (Zpos (digits2_pos p) + e)))
    as [Hez Hdz].
  destruct (shl_align p e _) as [mz ez]. simpl in *.
  eapply finite_within_weaken; [reflexivity| |apply binary_round_aux_finite; lia].
  lia.
Qed.

Lemma binary_normalize_finite (D e k : Z) :
  0 <= k -> Z.abs D < 2 ^ k -> e <= 969 -> k + e <= 1022 ->
  finite_within 53 (Z.max (Z.max e (k + e - 53)) (-1074) + 1)
    (binary_normalize prec emax D e false).
Proof.
  intros Hk HD He Hke. destruct D as [|p|p]; simpl; [done|..].
  - pose proof (digits2_pos_below p k Hk HD).
    eapply finite_within_weaken; [reflexivity| |apply binary_round_finite; lia].
    lia.
  - pose proof (digits2_pos_below p k Hk HD).
    eapply finite_within_weaken; [reflexivity| |apply binary_round_finite; lia].
    lia.
Qed.

(** The product of two bounded floats is zero or finite. *)
Lemma mul_finite (da db Ea Eb : Z) (x y : float) :
  finite_within da Ea x -> finite_within db Eb y ->
  Ea + Eb <= 969 -> da + db + Ea + Eb <= 1022 ->
  exists E, finite_within 53 E (mul x y).
Proof.
  intros Hx Hy HE Hd.
  destruct x as [sx| | |sx mx ex], y as [sy| | |sy my ey]; simpl in *; try done;
    try (by exists 0).
  destruct Hx as [Hdx Hex], Hy as [Hdy Hey].
  pose proof (digits2_pos_mul mx my).
  eexists. apply binary_round_aux_finite; lia.
Qed.

Lemma in_unit_interval_cases (m : float) :
  in_unit_interval m = true ->
  (exists s, m = S754_zero s) \/
  (exists mm em, m = S754_finite false mm em /\
                 Zpos (digits2_pos mm) <= 53 /\ -1074 <= em <= -52).
Proof.
  unfold in_unit_interval, valid, leb, SFleb.
  intros [[Hvalid H0]%andb_true_iff H1]%andb_true_iff.
  destruct m as [s|s| |s mm em].
  - left. by exists s.
  - cbn in H0. by destruct s.
  - cbn in H0. done.
  - right. cbn in H0. destruct s; [done|]. exists mm, em. split; [done|].
    cbn [valid_binary] in Hvalid.
    unfold bounded, canonical_mantissa, fexp, SpecFloat.emin, prec, emax in Hvalid.
    apply andb_true_iff in Hvalid as [Hc%Z.eqb_eq _].
    unfold f1, SFcompare in H1.
    destruct (Z.compare_spec em (-52)); [lia|lia|done].
Qed.

(** [1 - margin_error] is zero or finite, of small exponent. *)
Lemma sub_one_finite (m : float) :
  in_unit_interval m = true -> finite_within 53 (-51) (sub f1 m).
Proof.
  intros [(s & ->)|(mm & em & -> & Hd & He)]%in_unit_interval_cases.
  - vm_compute. split; discriminate.
  - change f1 with (S754_finite false 4503599627370496 (-52)).
    unfold sub, SFsub, cond_Zopp. rewrite (Z.min_r (-52) em) by lia.
    destruct (shl_align_bound 4503599627370496 (-52) em) as [_ HA].
    destruct (shl_align_bound mm em em) as [_ HB].
    assert (HA2 : (shl_align 4503599627370496 (-52) em).2 = em).
    { unfold shl_align. destruct (em - -52) as [|d|d] eqn:Hd'; simpl; lia. }
    assert (HB2 : (shl_align mm em em).2 = em).
    { unfold shl_align. by rewrite Z.sub_diag. }
    rewrite HA2 in HA. rewrite HB2 in HB.
    pose proof (Zpos_below_digits (shl_align 4503599627370496 (-52) em).1) as HAlt.
    pose proof (Zpos_below_digits (shl_align mm em em).1) as HBlt.
    change (Zpos (digits2_pos 4503599627370496)) with 53 in HA.
    assert (Hpow : forall d, 0 <= d <= 1 - em -> 2 ^ d <= 2 ^ (1 - em))
      by (intros d Hd'; apply Z.pow_le_mono_r; lia).
    pose proof (Hpow (Zpos (digits2_pos (shl_align 4503599627370496 (-52) em).1))
                  ltac:(lia)).
    pose proof (Hpow (Zpos (digits2_pos (shl_align mm em em).1)) ltac:(lia)).
    eapply finite_within_weaken;
      [reflexivity| |apply (binary_normalize_finite _ em (1 - em)); lia].
    lia.
Qed.

(** [count * (1 - margin_error)] is zero or finite for a count below
    [2^53]: [int] does not raise on it. *)
Lemma to_int_scaled_defined (n : Z) (m : float) :
  0 < n < 2 ^ 53 -> in_unit_interval m = true ->
  exists z, to_int (mul (of_int n) (sub f1 m)) = Some z.
Proof.
  intros Hn Hm. destruct n as [|p|p]; try lia.
  destruct (of_int_exact p ltac:(lia)) as (mn & en & -> & Hd & He & _).
  destruct (mul_finite 53 53 0 (-51) (S754_finite false mn en) (sub f1 m))
    as (E & HE); [simpl; lia|by apply sub_one_finite|lia..|].
  by eapply finite_within_to_int.
Qed.

End Float64Bounds.

(** ** Facts about the numpy operations *)

Section NpFacts.

Lemma u8_range (b : byte) : 0 <= u8 b <= 255.
Proof. unfold u8. pose proof (Byte.to_N_bounded b). lia. Qed.

Lemma u8_inj (b c : byte) : u8 b = u8 c -> b = c.
Proof.
  unfold u8. intros H. apply N2Z.inj in H.
  pose proof (Byte.of_to_N b) as Hb. rewrite H, Byte.of_to_N in Hb. congruence.
Qed.

Lemma to_uint8_u8 (b : byte) : to_uint8 (u8 b) = Ok b.
Proof.
  unfold to_uint8, u8. rewrite decide_True by lia.
  by rewrite N2Z.id, Byte.of_to_N.
Qed.

Lemma to_uint8_Ok (v : Z) (b : byte) : to_uint8 v = Ok b -> u8 b = v.
Proof.
  unfold to_uint8, u8. destruct (decide (0 <= v)) as [Hv|]; [|done].
  destruct (Byte.of_N (Z.to_N v)) as [b'|] eqn:Hb; [|done].
  intros [= <-]. apply Byte.to_of_N in Hb. lia.
Qed.

(** *** The order on rows *)

Lemma rgba_compare_word (p q : rgba) : rgba_compare p q = (word p ?= word q).
Proof.
  unfold rgba_compare, word.
  pose proof (u8_range (red p)). pose proof (u8_range (green p)).
  pose proof (u8_range (blue p)). pose proof (u8_range (alpha p)).
  pose proof (u8_range (red q)). pose proof (u8_range (green q)).
  pose proof (u8_range (blue q)). pose proof (u8_range (alpha q)).
  symmetry.
  destruct (Z.compare_spec (u8 (red p)) (u8 (red q)));
    [destruct (Z.compare_spec (u8 (green p)) (u8 (green q)));
      [destruct (Z.compare_spec (u8 (blue p)) (u8 (blue q)));
        [destruct (Z.compare_spec (u8 (alpha p)) (u8 (alpha q)))|..]|..]|..];
    first [apply Z.compare_eq_iff | apply Z.compare_lt_iff | apply Z.compare_gt_iff];
    lia.
Qed.

Lemma word_inj (p q : rgba) : word p = word q -> p = q.
Proof.
  unfold word. intros H.
  pose proof (u8_range (red p)). pose proof (u8_range (green p)).
  pose proof (u8_range (blue p)). pose proof (u8_range (alpha p)).
  pose proof (u8_range (red q)). pose proof (u8_range (green q)).
  pose proof (u8_range (blue q)). pose proof (u8_range (alpha q)).
  destruct p as [r g b a], q as [r' g' b' a']; simpl in *.
  f_equal; apply u8_inj; lia.
Qed.

Lemma rgba_le_word (p q : rgba) : rgba_le p q <-> word p <= word q.
Proof. unfold rgba_le. rewrite rgba_compare_word. reflexivity. Qed.

Lemma rgba_lt_word (p q : rgba) : rgba_lt p q <-> word p < word q.
Proof. unfold rgba_lt. rewrite rgba_compare_word. reflexivity. Qed.

#[global] Instance rgba_le_total : Total rgba_le.
Proof. intros p q. rewrite !rgba_le_word. lia. Qed.

#[global] Instance rgba_le_trans : Transitive rgba_le.
Proof. intros p q r. rewrite !rgba_le_word. lia. Qed.

#[global] Instance rgba_lt_trans : Transitive rgba_lt.
Proof. intros p q r. rewrite !rgba_lt_word. lia. Qed.

Lemma rgba_lt_irrefl (p : rgba) : ~ rgba_lt p p.
Proof. rewrite rgba_lt_word. lia. Qed.

Lemma rgba_le_neq_lt (p q : rgba) : rgba_le p q -> p <> q -> rgba_lt p q.
Proof.
  rewrite rgba_le_word, rgba_lt_word. intros Hle Hne.
  destruct (decide (word p = word q)) as [Heq|]; [|lia].
  by apply word_inj in Heq.
Qed.

(** *** [unique] *)

Lemma elem_of_changes (prev p : rgba) (l : list rgba) :
  p ∈ changes prev l -> p ∈ l.
Proof.
  revert prev. induction l as [|q l IH]; intros prev; simpl; [done|].
  destruct (decide (q = prev)) as [_|_].
  - intros Hp%IH. by right.
  - rewrite !elem_of_cons. intros [->|Hp%IH]; [by left|by right].
Qed.

Lemma elem_of_changes_inv (prev p : rgba) (l : list rgba) :
  p ∈ l -> p = prev \/ p ∈ changes prev l.
Proof.
  revert prev. induction l as [|q l IH]; intros prev; simpl.
  - by intros ?%elem_of_nil.
  - rewrite elem_of_cons. intros [->|Hp].
    + destruct (decide (q = prev)); [by left|right; left].
    + destruct (IH q Hp) as [->|Hin].
      * destruct (decide (q = prev)); [by left|right; left].
      * destruct (decide (q = prev)); [by right|right; by right].
Qed.

Lemma elem_of_drop_repeats (p : rgba) (l : list rgba) :
  p ∈ drop_repeats l <-> p ∈ l.
Proof.
  destruct l as [|q l]; simpl; [done|]. rewrite !elem_of_cons. split.
  - intros [->|Hp]; [by left|right; by eapply elem_of_changes].
  - intros [->|Hp]; [by left|]. destruct (elem_of_changes_inv q p l Hp); auto.
Qed.

Lemma changes_sorted (prev : rgba) (l : list rgba) :
  StronglySorted rgba_le (prev :: l) ->
  StronglySorted rgba_lt (changes prev l) /\ Forall (rgba_lt prev) (changes prev l).
Proof.
  revert prev. induction l as [|q l IH]; intros prev Hs; simpl.
  - split; constructor.
  - apply StronglySorted_cons in Hs as [Hall Hs].
    apply Forall_cons in Hall as [Hpq Hall].
    destruct (IH q Hs) as [Hsorted Hlt].
    destruct (decide (q = prev)) as [->|Hne]; [done|].
    assert (rgba_lt prev q) by (apply rgba_le_neq_lt; done).
    split.
    + by constructor.
    + constructor; [done|]. eapply Forall_impl; [exact Hlt|].
      intros r Hr. by transitivity q.
Qed.

Lemma drop_repeats_sorted (l : list rgba) :
  StronglySorted rgba_le l -> StronglySorted rgba_lt (drop_repeats l).
Proof.
  destruct l as [|p l]; simpl; [constructor|].
  intros Hs. destruct (changes_sorted p l Hs). by constructor.
Qed.

(** The rows returned by [unique] are those of its argument, each once,
    in strictly ascending order. *)
Lemma unique_sorted (l : list rgba) : StronglySorted rgba_lt (unique l).
Proof.
  apply drop_repeats_sorted, StronglySorted_merge_sort; apply _.
Qed.

Lemma elem_of_unique (p : rgba) (l : list rgba) : p ∈ unique l <-> p ∈ l.
Proof.
  unfold unique. rewrite elem_of_drop_repeats.
  by rewrite (merge_sort_Permutation rgba_le l).
Qed.

Lemma StronglySorted_lt_NoDup (l : list rgba) :
  StronglySorted rgba_lt l -> NoDup l.
Proof.
  intros Hsorted. induction Hsorted as [|p l Hs IH Hall]; constructor; [|done].
  intros Hin. rewrite Forall_forall in Hall.
  by apply (rgba_lt_irrefl p), Hall.
Qed.

Lemma unique_NoDup (l : list rgba) : NoDup (unique l).
Proof. apply StronglySorted_lt_NoDup, unique_sorted. Qed.

End NpFacts.

(** *** Index pairs, [argwhere] and strided slices *)

Section IndexFacts.

Lemma elem_of_indices (h w : nat) (yx : nat * nat) :
  yx ∈ indices h w <-> (yx.1 < h)%nat /\ (yx.2 < w)%nat.
Proof.
  unfold indices. rewrite list_elem_of_bind. split.
  - intros (y & Hyx & Hy). apply list_elem_of_fmap in Hyx as (x & -> & Hx).
    apply elem_of_seq in Hy, Hx. simpl. lia.
  - intros [Hy Hx]. exists yx.1. split.
    + apply list_elem_of_fmap. exists yx.2. split; [by destruct yx|].
      apply elem_of_seq. lia.
    + apply elem_of_seq. lia.
Qed.

Lemma seq_sorted (s n : nat) : StronglySorted lt (seq s n).
Proof.
  revert s. induction n as [|n IH]; intros s; simpl; constructor; [done|].
  apply Forall_forall. intros k Hk%elem_of_seq. lia.
Qed.

Lemma indices_from_sorted (s h w : nat) :
  StronglySorted row_major_lt (y ← seq s h; (fun x => (y, x)) <$> seq 0 w).
Proof.
  revert s. induction h as [|h IH]; intros s; simpl; [constructor|].
  apply StronglySorted_app. split; [|split].
  - intros a b Ha Hb.
    apply list_elem_of_fmap in Ha as (x & -> & _).
    apply list_elem_of_bind in Hb as (y & Hb & Hy).
    apply list_elem_of_fmap in Hb as (x' & -> & _).
    apply elem_of_seq in Hy. left. simpl. lia.
  - apply (StronglySorted_fmap _ lt); [|apply seq_sorted].
    intros x x' Hx. right. simpl. lia.
  - apply IH.
Qed.

Lemma indices_sorted (h w : nat) : StronglySorted row_major_lt (indices h w).
Proof. apply indices_from_sorted. Qed.

#[global] Instance row_major_lt_trans : Transitive row_major_lt.
Proof. intros a b c. unfold row_major_lt. lia. Qed.

Lemma StronglySorted_sublist {T : Type} (R : relation T) (l k : list T) :
  l `sublist_of` k -> StronglySorted R k -> StronglySorted R l.
Proof.
  intros Hsub. induction Hsub as [|t l k Hsub IH|t l k Hsub IH]; intros Hk.
  - constructor.
  - apply StronglySorted_cons in Hk as [Hall Hk]. constructor; [by apply IH|].
    apply Forall_forall. intros u Hu. rewrite Forall_forall in Hall.
    apply Hall. by eapply elem_of_sublist.
  - apply StronglySorted_cons in Hk as [_ Hk]. by apply IH.
Qed.

Lemma row_major_sorted_NoDup (l : list (nat * nat)) :
  StronglySorted row_major_lt l -> NoDup l.
Proof.
  intros Hs. induction Hs as [|a l Hs IH Hall]; constructor; [|done].
  intros Hin. rewrite Forall_forall in Hall.
  specialize (Hall a Hin). unfold row_major_lt in Hall. lia.
Qed.

Lemma argwhere_sublist (a : ndarray) (color : rgba) :
  argwhere a color `sublist_of` indices (rows a) (cols a).
Proof. apply sublist_filter. Qed.

Lemma elem_of_argwhere (a : ndarray) (color : rgba) (yx : nat * nat) :
  yx ∈ argwhere a color <->
  (yx.1 < rows a)%nat /\ (yx.2 < cols a)%nat /\ rgb3 (at_index a yx) = rgb3 color.
Proof.
  unfold argwhere, mask. rewrite list_elem_of_filter, elem_of_indices.
  rewrite bool_decide_eq_true. tauto.
Qed.

Lemma argwhere_sorted (a : ndarray) (color : rgba) :
  StronglySorted row_major_lt (argwhere a color).
Proof.
  eapply StronglySorted_sublist; [apply argwhere_sublist|apply indices_sorted].
Qed.

Lemma length_indices (h w : nat) : length (indices h w) = (h * w)%nat.
Proof.
  unfold indices.
  assert (Hlen : forall s, length (y ← seq s h; (fun x => (y, x)) <$> seq 0 w)
                           = (h * w)%nat); [|apply Hlen].
  induction h as [|h IH]; intros s; simpl; [done|].
  rewrite length_app, length_fmap, length_seq, IH. done.
Qed.

Lemma length_argwhere (a : ndarray) (color : rgba) :
  (length (argwhere a color) <= rows a * cols a)%nat.
Proof.
  rewrite <- length_indices. apply sublist_length, argwhere_sublist.
Qed.

(** A cell of the array belongs to the mask of its own row. *)
Lemma argwhere_own_color (a : ndarray) (yx : nat * nat) :
  (yx.1 < rows a)%nat -> (yx.2 < cols a)%nat ->
  yx ∈ argwhere a (at_index a yx).
Proof. intros. by apply elem_of_argwhere. Qed.

Lemma elem_of_reshape (a : ndarray) (p : rgba) :
  p ∈ reshape a <->
  exists yx, (yx.1 < rows a)%nat /\ (yx.2 < cols a)%nat /\ at_index a yx = p.
Proof.
  unfold reshape. rewrite list_elem_of_fmap. split.
  - intros (yx & -> & Hyx%elem_of_indices). exists yx. tauto.
  - intros (yx & Hy & Hx & <-). exists yx. split; [done|].
    by apply elem_of_indices.
Qed.

(** Every colour found by [unique] has a non-empty mask: the [continue] of
    the loop is never taken. *)
Lemma argwhere_unique_nonempty (a : ndarray) (color : rgba) :
  color ∈ unique (reshape a) -> argwhere a color <> [].
Proof.
  intros Hc%elem_of_unique%elem_of_reshape. destruct Hc as (yx & Hy & Hx & <-).
  intros Hnil. pose proof (argwhere_own_color a yx Hy Hx) as Hin.
  rewrite Hnil in Hin. by apply elem_of_nil in Hin.
Qed.

Section Slice.
Context {T : Type}.
Implicit Types (l : list T) (k skip : nat).

Lemma slice_step_from_sublist k skip l : slice_step_from k skip l `sublist_of` l.
Proof.
  revert skip. induction l as [|t l IH]; intros skip; simpl; [constructor|].
  destruct skip; by constructor.
Qed.

Lemma slice_step_sublist k l : slice_step k l `sublist_of` l.
Proof. apply slice_step_from_sublist. Qed.

(** The element at position [i] of [l[::k]] is the element at position
    [i * k] of [l]. *)
Lemma slice_step_from_lookup k skip l (i : nat) :
  (1 <= k)%nat -> slice_step_from k skip l !! i = l !! (skip + i * k)%nat.
Proof.
  intros Hk. revert skip i. induction l as [|t l IH]; intros skip i; simpl.
  - by rewrite !lookup_nil.
  - destruct skip as [|skip].
    + destruct i as [|i]; simpl; [done|].
      rewrite IH. replace (k + i * k)%nat with (S (k - 1 + i * k)) by lia. done.
    + rewrite IH. done.
Qed.

Lemma slice_step_lookup k l (i : nat) :
  (1 <= k)%nat -> slice_step k l !! i = l !! (i * k)%nat.
Proof. intros Hk. unfold slice_step. by rewrite slice_step_from_lookup. Qed.

Lemma slice_step_from_length k skip l :
  (1 <= k)%nat -> (skip < k)%nat ->
  length (slice_step_from k skip l) = ((length l + (k - 1) - skip) / k)%nat.
Proof.
  intros Hk. revert skip. induction l as [|t l IH]; intros skip Hskip; simpl.
  - symmetry. apply Nat.div_small. lia.
  - destruct skip as [|skip].
    + rewrite length_cons, IH by lia.
      replace (S (length l + (k - 1)) - 0)%nat
        with (length l + (k - 1) - (k - 1) + 1 * k)%nat by lia.
      rewrite Nat.div_add by lia. lia.
    + rewrite IH by lia. f_equal.
Qed.

(** [len(l[::k])] is [len(l) / k] rounded up. *)
Lemma slice_step_length k l :
  (1 <= k)%nat -> length (slice_step k l) = ((length l + (k - 1)) / k)%nat.
Proof.
  intros Hk. unfold slice_step. rewrite slice_step_from_length by lia.
  f_equal. lia.
Qed.

Lemma slice_step_head k l : head (slice_step k l) = head l.
Proof. by destruct l. Qed.

Lemma slice_step_one l : slice_step 1 l = l.
Proof.
  unfold slice_step. induction l as [|t l IH]; simpl; [done|]. by rewrite IH.
Qed.

Lemma slice_step_from_short k skip l :
  (length l <= skip)%nat -> slice_step_from k skip l = [].
Proof.
  revert skip. induction l as [|u l IH]; intros skip Hlen; simpl; [done|].
  simpl in Hlen. destruct skip as [|skip]; [lia|]. apply IH. lia.
Qed.

Lemma slice_step_all k l : (length l <= k)%nat -> slice_step k l = take 1 l.
Proof.
  intros Hk. destruct l as [|t l]; [done|]. unfold slice_step. simpl. f_equal.
  rewrite take_0. apply slice_step_from_short. simpl in Hk. lia.
Qed.

End Slice.

End IndexFacts.

(** ** The encoder, plane by plane *)

Section EncoderFacts.
Import Float64.

Lemma bind_Ok {T U : Type} (c : result T) (k : T -> result U) (u : U) :
  Py.bind c k = Ok u <-> exists t, c = Ok t /\ k t = Ok u.
Proof.
  destruct c as [t|e]; simpl.
  - split; [by exists t|]. by intros (t' & [= <-] & Hk).
  - split; [done|]. by intros (t' & [=] & _).
Qed.

Lemma num_vectors_pos (count : nat) (m : float) (nv : Z) :
  num_vectors count m = Ok nv -> 1 <= nv.
Proof.
  unfold num_vectors. intros (n & _ & [= <-])%bind_Ok. lia.
Qed.

Lemma stride_pos (count : nat) (nv : Z) : (1 <= stride count nv)%nat.
Proof. unfold stride. lia. Qed.

Lemma encode_plane_Ok (arr : ndarray) (m : float) (color : rgba) (p : option plane) :
  argwhere arr color <> [] ->
  encode_plane arr m color = Ok p ->
  exists pl, p = Some pl /\ produced arr m color pl.
Proof.
  intros Hne. unfold encode_plane. rewrite bool_decide_eq_false_2 by done.
  intros (nv & Hnv & [= <-])%bind_Ok.
  eexists. split; [done|]. split; [done|]. by exists nv.
Qed.

Lemma encode_planes_Ok (arr : ndarray) (m : float) (colors : list rgba)
  (planes : list plane) :
  Forall (fun color => argwhere arr color <> []) colors ->
  encode_planes arr m colors = Ok planes ->
  Forall2 (produced arr m) colors planes.
Proof.
  intros Hne. revert planes.
  induction Hne as [|color colors Hc Hne IH]; intros planes; simpl.
  - intros [= <-]. constructor.
  - intros (p & Hp & (planes' & Hrest & [= <-])%bind_Ok)%bind_Ok.
    destruct (encode_plane_Ok _ _ _ _ Hc Hp) as (pl & -> & Hpl).
    constructor; [done|]. by apply IH.
Qed.

Lemma encode_planes_total (arr : ndarray) (m : float) (colors : list rgba) :
  Forall (fun color => argwhere arr color <> []) colors ->
  Forall (fun color => exists nv,
            num_vectors (length (argwhere arr color)) m = Ok nv) colors ->
  exists planes, encode_planes arr m colors = Ok planes.
Proof.
  intros Hne Hnv. induction Hne as [|color colors Hc Hne IH]; simpl.
  - by eexists.
  - apply Forall_cons in Hnv as [(nv & Hnv) Hrest].
    destruct (IH Hrest) as (planes & ->).
    unfold encode_plane. rewrite bool_decide_eq_false_2, Hnv by done.
    simpl. by eexists.
Qed.

Lemma unique_masks_nonempty (arr : ndarray) :
  Forall (fun color => argwhere arr color <> []) (unique (reshape arr)).
Proof. apply Forall_forall. intros color. apply argwhere_unique_nonempty. Qed.

(** What a successful run of [convert_to_ccvi] returns: the size of the
    array, the margin of error, and one plane per row of
    [unique (reshape arr)], in that order. *)
Lemma convert_to_ccvi_Ok (arr : ndarray) (m : float) (data : ccvi) :
  convert_to_ccvi arr m = Ok data ->
  exists planes,
    data = CcviData (Some (Z.of_nat (cols arr))) (Some (Z.of_nat (rows arr)))
             (Some planes) (Some m) /\
    Forall2 (produced arr m) (unique (reshape arr)) planes.
Proof.
  unfold convert_to_ccvi. intros (planes & Hplanes & [= <-])%bind_Ok.
  exists planes. split; [done|].
  eapply encode_planes_Ok; [apply unique_masks_nonempty|done].
Qed.

(** [convert_to_ccvi] returns as soon as [num_vectors] is defined for the
    population of every mask. *)
Lemma convert_to_ccvi_total (arr : ndarray) (m : float) :
  (forall count : nat, (0 < count <= rows arr * cols arr)%nat ->
     exists nv, num_vectors count m = Ok nv) ->
  exists data, convert_to_ccvi arr m = Ok data.
Proof.
  intros Hnv. unfold convert_to_ccvi.
  destruct (encode_planes_total arr m (unique (reshape arr))) as (planes & ->).
  - apply unique_masks_nonempty.
  - apply Forall_forall. intros color Hc%argwhere_unique_nonempty.
    apply Hnv. split; [|apply length_argwhere].
    destruct (argwhere arr color); [done|simpl; lia].
  - simpl. by eexists.
Qed.

(** The two ends of the scale: [margin_error = 0.0] keeps the count,
    [margin_error = 1.0] asks for one vector. *)
Lemma num_vectors_zero_error (count : nat) :
  0 < Z.of_nat count < 2 ^ 53 -> num_vectors count f0 = Ok (Z.of_nat count).
Proof.
  intros Hc. unfold num_vectors, Py.int.
  rewrite to_int_scaled_zero_error by done. simpl. f_equal. lia.
Qed.

Lemma num_vectors_full_error (count : nat) :
  0 < Z.of_nat count < 2 ^ 53 -> num_vectors count f1 = Ok 1.
Proof.
  intros Hc. unfold num_vectors, Py.int.
  rewrite to_int_scaled_full_error by done. reflexivity.
Qed.

Lemma num_vectors_defined (count : nat) (m : float) :
  0 < Z.of_nat count < 2 ^ 53 -> in_unit_interval m = true ->
  exists nv, num_vectors count m = Ok nv.
Proof.
  intros Hc Hm. unfold num_vectors, Py.int.
  destruct (to_int_scaled_defined (Z.of_nat count) m Hc Hm) as (z & ->).
  simpl. by eexists.
Qed.

(** [convert_to_ccvi] returns for every margin of error between 0.0 and
    1.0, on an array of fewer than [2^53] cells. *)
Lemma convert_to_ccvi_returns (arr : ndarray) (m : float) :
  in_unit_interval m = true ->
  Z.of_nat (rows arr * cols arr) < 2 ^ 53 ->
  exists data, convert_to_ccvi arr m = Ok data.
Proof.
  intros Hm Hsize. apply convert_to_ccvi_total.
  intros count Hc. apply num_vectors_defined; [lia|done].
Qed.

Lemma stride_same (count : nat) :
  (0 < count)%nat -> stride count (Z.of_nat count) = 1%nat.
Proof. intros Hc. unfold stride. rewrite Z.div_same by lia. lia. Qed.

Lemma stride_by_one (count : nat) : (0 < count)%nat -> stride count 1 = count.
Proof. intros Hc. unfold stride. rewrite Z.div_1_r. lia. Qed.

End EncoderFacts.

(** ** Properties of [convert_to_ccvi] *)

Section EncoderTheorems.
Import Float64 Examples Claimed.

Lemma coordinates_sample (arr : ndarray) (l : list (nat * nat)) :
  coordinates (sample arr <$> l) = as_coordinates l.
Proof.
  unfold coordinates, as_coordinates. rewrite <- list_fmap_compose.
  by apply list_fmap_ext.
Qed.

#[local] Instance as_coordinate_inj :
  Inj (=) (=) (fun yx : nat * nat => (Some (Z.of_nat yx.1), Some (Z.of_nat yx.2))).
Proof. intros [y x] [y' x'] [= Hy%Nat2Z.inj Hx%Nat2Z.inj]. simpl in *. congruence. Qed.

(** C1, as the specification states it, fails: a mask of five cells
    encoded with [margin_error = 0.5] keeps three vectors (positions 0, 2
    and 4), while the formula predicts two. *)
Lemma stride_formula_fails : ~ stride_formula_holds five_in_a_row fhalf.
Proof.
  intros Hclaim.
  specialize (Hclaim five_in_a_row_encoded _ (Rgba "001" "002" "003" "255") _ _
                eq_refl eq_refl (list_elem_of_here _ _) eq_refl eq_refl).
  vm_compute in Hclaim. discriminate Hclaim.
Qed.

Lemma produced_ceiling_count (arr : ndarray) (m : float) (color : rgba) (pl : plane) :
  produced arr m color pl -> ceiling_count arr m color pl.
Proof.
  intros (_ & nv & Hnv & ->). exists nv. eexists.
  split; [done|]. split; [done|]. split; [done|]. simpl.
  rewrite length_fmap, slice_step_length by apply stride_pos.
  rewrite Nat2Z.inj_div, Nat2Z.inj_add, Nat2Z.inj_sub by apply stride_pos.
  unfold stride. rewrite Z2Nat.id by lia. f_equal. lia.
Qed.

(** C1, amended: for a margin of error [m] between 0.0 and 1.0 (and an
    array of fewer than [2^53] cells) [convert_to_ccvi] returns, and in
    every plane it produces, for a mask of [count] cells and
    [num_vectors = max(1, int(count * (1 - m)))], the number of vectors is
    [count / k] rounded up, where [k = max(1, count // num_vectors)] is the
    step of the slice. *)
Theorem stride_sampling_count (arr : ndarray) (m : float) :
  in_unit_interval m = true ->
  Z.of_nat (rows arr * cols arr) < 2 ^ 53 ->
  exists data planes,
    convert_to_ccvi arr m = Ok data /\
    ccvi_planes data = Some planes /\
    Forall2 (ceiling_count arr m) (unique (reshape arr)) planes.
Proof.
  intros Hm Hsize.
  destruct (convert_to_ccvi_returns arr m Hm Hsize) as (data & Hdata).
  exists data. rewrite Hdata.
  apply convert_to_ccvi_Ok in Hdata as (planes & -> & Hplanes).
  exists planes. split; [done|]. split; [done|].
  eapply Forall2_impl; [exact Hplanes|]. apply produced_ceiling_count.
Qed.

Lemma stride_sampling_count_witness :
  exists data planes,
    convert_to_ccvi five_in_a_row fhalf = Ok data /\
    ccvi_planes data = Some planes /\
    Forall2 (ceiling_count five_in_a_row fhalf) (unique (reshape five_in_a_row)) planes.
Proof.
  apply (stride_sampling_count five_in_a_row fhalf); vm_compute; reflexivity.
Defined.

(** C2, as the specification states it, fails: for a red cell followed by
    a blue cell the blue plane comes first. *)
Lemma first_occurrence_order_fails :
  ~ planes_in_first_occurrence_order red_then_blue f0.
Proof.
  intros Hclaim.
  specialize (Hclaim red_then_blue_encoded _ eq_refl eq_refl).
  vm_compute in Hclaim. discriminate Hclaim.
Qed.

Lemma rgba_lt_color_le (p q : rgba) : rgba_lt p q -> color_le (rgb3 p) (rgb3 q).
Proof.
  unfold rgba_lt, color_le, rgba_compare, rgb3. cbn [color_compare].
  destruct (u8 (red p) ?= u8 (red q)); [|done..].
  destruct (u8 (green p) ?= u8 (green q)); [|done..].
  destruct (u8 (blue p) ?= u8 (blue q)); done.
Qed.

(** C2, amended: for a margin of error between 0.0 and 1.0 (and an array
    of fewer than [2^53] cells) the planes of the encoded document are
    listed in ascending lexicographic order of their colours, red first,
    then green, then blue: the colour of a plane is never above the
    colour of a later plane. The colours are the RGB values of the cells
    of the array. *)
Theorem planes_in_ascending_color_order (arr : ndarray) (m : float) :
  in_unit_interval m = true ->
  Z.of_nat (rows arr * cols arr) < 2 ^ 53 ->
  exists data planes colors,
    convert_to_ccvi arr m = Ok data /\
    ccvi_planes data = Some planes /\
    plane_color <$> planes = Some <$> colors /\
    StronglySorted color_le colors /\
    (forall c, c ∈ colors <-> c ∈ rgb3 <$> reshape arr).
Proof.
  intros Hm Hsize.
  destruct (convert_to_ccvi_returns arr m Hm Hsize) as (data & Hdata).
  exists data. rewrite Hdata.
  apply convert_to_ccvi_Ok in Hdata as (planes & -> & Hplanes).
  exists planes, (rgb3 <$> unique (reshape arr)).
  split; [done|]. split; [done|]. split; [|split].
  - induction Hplanes as [|color pl colors planes Hpl _ IH]; [done|].
    destruct Hpl as (_ & nv & _ & ->). csimpl. by rewrite IH.
  - apply (StronglySorted_fmap _ rgba_lt color_le);
      [apply rgba_lt_color_le|apply unique_sorted].
  - intros c. rewrite !list_elem_of_fmap. split.
    + intros (p & -> & Hp). exists p. split; [done|].
      by apply (elem_of_unique p (reshape arr)).
    + intros (p & -> & Hp). exists p. split; [done|].
      by apply (elem_of_unique p (reshape arr)).
Qed.

Lemma planes_in_ascending_color_order_witness :
  exists data planes colors,
    convert_to_ccvi red_then_blue f0 = Ok data /\
    ccvi_planes data = Some planes /\
    plane_color <$> planes = Some <$> colors /\
    StronglySorted color_le colors /\
    (forall c, c ∈ colors <-> c ∈ rgb3 <$> reshape red_then_blue).
Proof.
  apply (planes_in_ascending_color_order red_then_blue f0); vm_compute; reflexivity.
Defined.

(** C3 does not hold of the code: [np.unique] is applied to the four-byte
    rows while the mask and the plane use only the first three bytes, so
    two cells with equal RGB and different alpha give two planes of the
    same colour (with the same vectors). *)
Theorem same_rgb_two_alphas_planes :
  exists pl1 pl2,
    convert_to_ccvi same_rgb_two_alphas f0 = Ok same_rgb_two_alphas_encoded /\
    ccvi_planes same_rgb_two_alphas_encoded = Some [pl1; pl2] /\
    plane_color pl1 = Some ["010"; "020"; "030"]%byte /\
    plane_color pl2 = Some ["010"; "020"; "030"]%byte /\
    ~ plane_colors_distinct same_rgb_two_alphas f0.
Proof.
  do 2 eexists. split; [vm_compute; reflexivity|].
  split; [reflexivity|]. split; [reflexivity|]. split; [reflexivity|].
  intros Hclaim.
  specialize (Hclaim same_rgb_two_alphas_encoded _ eq_refl eq_refl).
  apply NoDup_cons in Hclaim as [Hnotin _]. apply Hnotin. left.
Qed.

Lemma mask_count_range (arr : ndarray) (color : rgba) :
  Z.of_nat (rows arr * cols arr) < 2 ^ 53 ->
  argwhere arr color <> [] ->
  0 < Z.of_nat (length (argwhere arr color)) < 2 ^ 53.
Proof.
  intros Hsize Hne. pose proof (length_argwhere arr color).
  destruct (argwhere arr color); [done|simpl in *; lia].
Qed.

(** With [margin_error = 0.0] each plane holds a vector for every cell of
    its mask. *)
Lemma convert_to_ccvi_zero_error (arr : ndarray) :
  Z.of_nat (rows arr * cols arr) < 2 ^ 53 ->
  exists planes,
    convert_to_ccvi arr f0 =
      Ok (CcviData (Some (Z.of_nat (cols arr))) (Some (Z.of_nat (rows arr)))
            (Some planes) (Some f0)) /\
    Forall2 (fun color pl =>
      let mask_indices := argwhere arr color in
      mask_indices <> [] /\
      num_vectors (length mask_indices) f0 = Ok (Z.of_nat (length mask_indices)) /\
      stride (length mask_indices) (Z.of_nat (length mask_indices)) = 1%nat /\
      pl = Plane (Some (rgb3 color)) (Some (sample arr <$> mask_indices)))
      (unique (reshape arr)) planes.
Proof.
  intros Hsize.
  destruct (convert_to_ccvi_total arr f0) as (data & Hdata).
  { intros count Hc. eexists. apply num_vectors_zero_error. lia. }
  rewrite Hdata.
  apply convert_to_ccvi_Ok in Hdata as (planes & -> & Hplanes).
  exists planes. split; [done|].
  eapply Forall2_impl; [exact Hplanes|].
  intros color pl (Hne & nv & Hnv & ->). simpl.
  pose proof (mask_count_range arr color Hsize Hne) as Hcount.
  rewrite num_vectors_zero_error in Hnv |- * by done.
  injection Hnv as <-.
  split; [done|]. split; [done|].
  assert (Hstride : stride (length (argwhere arr color))
                      (Z.of_nat (length (argwhere arr color))) = 1%nat)
    by (apply stride_same; lia).
  split; [done|]. unfold plane_for. by rewrite Hstride, slice_step_one.
Qed.

(** With [margin_error = 1.0] each plane holds one vector, for the first
    cell of its mask. *)
Lemma convert_to_ccvi_full_error (arr : ndarray) :
  Z.of_nat (rows arr * cols arr) < 2 ^ 53 ->
  exists planes,
    convert_to_ccvi arr f1 =
      Ok (CcviData (Some (Z.of_nat (cols arr))) (Some (Z.of_nat (rows arr)))
            (Some planes) (Some f1)) /\
    Forall2 (fun color pl =>
      exists first,
        head (argwhere arr color) = Some first /\
        pl = Plane (Some (rgb3 color)) (Some [sample arr first]))
      (unique (reshape arr)) planes.
Proof.
  intros Hsize.
  destruct (convert_to_ccvi_total arr f1) as (data & Hdata).
  { intros count Hc. eexists. apply num_vectors_full_error. lia. }
  rewrite Hdata.
  apply convert_to_ccvi_Ok in Hdata as (planes & -> & Hplanes).
  exists planes. split; [done|].
  eapply Forall2_impl; [exact Hplanes|].
  intros color pl (Hne & nv & Hnv & ->).
  pose proof (mask_count_range arr color Hsize Hne) as Hcount.
  rewrite num_vectors_full_error in Hnv by done. injection Hnv as <-.
  unfold plane_for. rewrite stride_by_one by lia.
  rewrite slice_step_all by done.
  destruct (argwhere arr color) as [|first rest]; [done|].
  exists first. split; reflexivity.
Qed.

(** C8: with [margin_error = 0.0] every plane keeps all the cells of its
    mask ([num_vectors] is the count and the step is 1); with
    [margin_error = 1.0] every plane keeps exactly one cell, the first of
    its mask in row-major order. In both cases the [y] and [x] of the
    vectors are the index pairs of the cells kept. The array has fewer
    than [2^53] cells. *)
Theorem margin_error_extremes (arr : ndarray) :
  Z.of_nat (rows arr * cols arr) < 2 ^ 53 ->
  (exists planes,
     convert_to_ccvi arr f0 =
       Ok (CcviData (Some (Z.of_nat (cols arr))) (Some (Z.of_nat (rows arr)))
             (Some planes) (Some f0)) /\
     Forall2 (fun color pl =>
       let mask_indices := argwhere arr color in
       mask_indices <> [] /\
       num_vectors (length mask_indices) f0 = Ok (Z.of_nat (length mask_indices)) /\
       stride (length mask_indices) (Z.of_nat (length mask_indices)) = 1%nat /\
       pl = Plane (Some (rgb3 color)) (Some (sample arr <$> mask_indices)) /\
       coordinates (sample arr <$> mask_indices) = as_coordinates mask_indices)
       (unique (reshape arr)) planes) /\
  (exists planes,
     convert_to_ccvi arr f1 =
       Ok (CcviData (Some (Z.of_nat (cols arr))) (Some (Z.of_nat (rows arr)))
             (Some planes) (Some f1)) /\
     Forall2 (fun color pl =>
       exists first,
         head (argwhere arr color) = Some first /\
         pl = Plane (Some (rgb3 color)) (Some [sample arr first]) /\
         coordinates [sample arr first] = as_coordinates [first])
       (unique (reshape arr)) planes).
Proof.
  intros Hsize. split.
  - destruct (convert_to_ccvi_zero_error arr Hsize) as (planes & Hdata & Hplanes).
    exists planes. split; [done|].
    eapply Forall2_impl; [exact Hplanes|].
    intros color pl (Hne & Hnv & Hk & Hpl). do 4 (split; [done|]).
    apply coordinates_sample.
  - destruct (convert_to_ccvi_full_error arr Hsize) as (planes & Hdata & Hplanes).
    exists planes. split; [done|].
    eapply Forall2_impl; [exact Hplanes|].
    intros color pl (first & Hfirst & Hpl). exists first. do 2 (split; [done|]).
    apply (coordinates_sample arr [first]).
Qed.

Lemma margin_error_extremes_witness :
  (exists planes,
     convert_to_ccvi two_by_two f0 =
       Ok (CcviData (Some (Z.of_nat (cols two_by_two)))
             (Some (Z.of_nat (rows two_by_two))) (Some planes) (Some f0)) /\
     Forall2 (fun color pl =>
       let mask_indices := argwhere two_by_two color in
       mask_indices <> [] /\
       num_vectors (length mask_indices) f0 = Ok (Z.of_nat (length mask_indices)) /\
       stride (length mask_indices) (Z.of_nat (length mask_indices)) = 1%nat /\
       pl = Plane (Some (rgb3 color)) (Some (sample two_by_two <$> mask_indices)) /\
       coordinates (sample two_by_two <$> mask_indices) = as_coordinates mask_indices)
       (unique (reshape two_by_two)) planes) /\
  (exists planes,
     convert_to_ccvi two_by_two f1 =
       Ok (CcviData (Some (Z.of_nat (cols two_by_two)))
             (Some (Z.of_nat (rows two_by_two))) (Some planes) (Some f1)) /\
     Forall2 (fun color pl =>
       exists first,
         head (argwhere two_by_two color) = Some first /\
         pl = Plane (Some (rgb3 color)) (Some [sample two_by_two first]) /\
         coordinates [sample two_by_two first] = as_coordinates [first])
       (unique (reshape two_by_two)) planes).
Proof.
  apply (margin_error_extremes two_by_two). vm_compute. reflexivity.
Defined.

Lemma produced_ordered_sample (arr : ndarray) (m : float) (color : rgba) (pl : plane) :
  produced arr m color pl -> ordered_sample arr color pl.
Proof.
  intros (Hne & nv & Hnv & ->). unfold ordered_sample, plane_for. simpl.
  set (k := stride (length (argwhere arr color)) nv).
  assert (Hsub : slice_step k (argwhere arr color) `sublist_of` argwhere arr color)
    by apply slice_step_sublist.
  assert (Hsorted : StronglySorted row_major_lt (slice_step k (argwhere arr color)))
    by (eapply StronglySorted_sublist; [exact Hsub|apply argwhere_sorted]).
  destruct (argwhere arr color) as [|first rest] eqn:Hmask; [done|].
  eexists _, (slice_step k (first :: rest)), first.
  split; [done|]. split; [done|]. split; [done|].
  split; [apply coordinates_sample|]. split; [done|]. split; [|split; [done|]].
  - rewrite coordinates_sample. apply NoDup_fmap_2; [apply _|].
    by apply row_major_sorted_NoDup.
  - split; reflexivity.
Qed.

Lemma produced_points_at_color (arr : ndarray) (m : float) (color : rgba) (pl : plane) :
  produced arr m color pl ->
  forall vectors v, plane_vectors pl = Some vectors -> v ∈ vectors ->
    exists y x, (y < rows arr)%nat /\ (x < cols arr)%nat /\
                vec_y v = Some (Z.of_nat y) /\ vec_x v = Some (Z.of_nat x) /\
                rgb3 (cell arr y x) = rgb3 color.
Proof.
  intros (_ & nv & _ & ->) vectors v [= <-] (yx & -> & Hyx)%list_elem_of_fmap.
  eapply elem_of_sublist in Hyx; [|apply slice_step_sublist].
  apply elem_of_argwhere in Hyx as (Hy & Hx & Hrgb).
  exists yx.1, yx.2. by destruct yx.
Qed.

(** C10: for a margin of error between 0.0 and 1.0 (and an array of fewer
    than [2^53] cells) [convert_to_ccvi] returns, and in every plane of the
    document there is at least one vector; the index pairs of its vectors
    are an order-preserving subsequence of the index pairs of the plane's
    mask, hence pairwise distinct and strictly increasing in row-major
    order; the first vector samples the first cell of the mask; and every
    vector points at a cell inside the array whose RGB bytes are the
    colour of the plane. *)
Theorem sampled_vectors_invariant (arr : ndarray) (m : float) :
  in_unit_interval m = true ->
  Z.of_nat (rows arr * cols arr) < 2 ^ 53 ->
  exists data planes,
    convert_to_ccvi arr m = Ok data /\
    ccvi_planes data = Some planes /\
    Forall2 (fun color pl =>
      ordered_sample arr color pl /\
      forall vectors v, plane_vectors pl = Some vectors -> v ∈ vectors ->
        exists y x, (y < rows arr)%nat /\ (x < cols arr)%nat /\
                    vec_y v = Some (Z.of_nat y) /\ vec_x v = Some (Z.of_nat x) /\
                    rgb3 (cell arr y x) = rgb3 color)
      (unique (reshape arr)) planes.
Proof.
  intros Hm Hsize.
  destruct (convert_to_ccvi_returns arr m Hm Hsize) as (data & Hdata).
  exists data. rewrite Hdata.
  apply convert_to_ccvi_Ok in Hdata as (planes & -> & Hplanes).
  exists planes. split; [done|]. split; [done|].
  eapply Forall2_impl; [exact Hplanes|].
  intros color pl Hpl. split.
  - by apply (produced_ordered_sample arr m).
  - by apply (produced_points_at_color arr m).
Qed.

Lemma sampled_vectors_invariant_witness :
  exists data planes,
    convert_to_ccvi five_in_a_row fhalf = Ok data /\
    ccvi_planes data = Some planes /\
    Forall2 (fun color pl =>
      ordered_sample five_in_a_row color pl /\
      forall vectors v, plane_vectors pl = Some vectors -> v ∈ vectors ->
        exists y x, (y < rows five_in_a_row)%nat /\ (x < cols five_in_a_row)%nat /\
                    vec_y v = Some (Z.of_nat y) /\ vec_x v = Some (Z.of_nat x) /\
                    rgb3 (cell five_in_a_row y x) = rgb3 color)
      (unique (reshape five_in_a_row)) planes.
Proof.
  apply (sampled_vectors_invariant five_in_a_row fhalf); vm_compute; reflexivity.
Defined.

End EncoderTheorems.

(** ** The decoder, write by write *)

Section DecoderFacts.
Import Float64.

Lemma raises_bind_l {T U : Type} (c : result T) (k : T -> result U) :
  raises c -> raises (Py.bind c k).
Proof. intros (e & ->). by exists e. Qed.

Lemma raises_Raise {T : Type} (e : exn) : raises (@Raise T e).
Proof. by exists e. Qed.

Lemma raises_not_Ok {T : Type} (c : result T) (t : T) : raises c -> c <> Ok t.
Proof. by intros (e & ->). Qed.

Lemma result_cases {T : Type} (c : result T) : (exists t, c = Ok t) \/ raises c.
Proof. destruct c as [t|e]; [left; by exists t|right; by exists e]. Qed.

Lemma for_each_app {T S : Type} (body : S -> T -> result S) (s : S) (l k : list T) :
  for_each body s (l ++ k) = Py.bind (for_each body s l) (fun s' => for_each body s' k).
Proof.
  revert s. induction l as [|t l IH]; intros s; simpl; [done|].
  destruct (body s t) as [s'|e]; simpl; [apply IH|done].
Qed.

(** A loop whose body raises on one of the elements, whatever the state it
    is reached in, raises. *)
Lemma for_each_raises {T S : Type} (body : S -> T -> result S) (Inv : S -> Prop)
  (s : S) (l : list T) (t : T) :
  Inv s ->
  (forall s0 t0 s1, Inv s0 -> body s0 t0 = Ok s1 -> Inv s1) ->
  t ∈ l ->
  (forall s0, Inv s0 -> raises (body s0 t)) ->
  raises (for_each body s l).
Proof.
  intros Hs Hstep Hin Hraise. revert s Hs.
  induction l as [|t0 l IH]; intros s Hs; [by apply elem_of_nil in Hin|].
  simpl. destruct (body s t0) as [s1|e] eqn:Hbody; [|apply raises_Raise].
  simpl. apply elem_of_cons in Hin as [->|Hin].
  - by destruct (raises_not_Ok _ s1 (Hraise s Hs)).
  - apply IH; [done|]. by eapply Hstep.
Qed.

(** An invariant of the body holds after the loop. *)
Lemma for_each_invariant {T S : Type} (body : S -> T -> result S) (Inv : S -> Prop)
  (s s' : S) (l : list T) :
  Inv s ->
  (forall s0 t0 s1, t0 ∈ l -> Inv s0 -> body s0 t0 = Ok s1 -> Inv s1) ->
  for_each body s l = Ok s' -> Inv s'.
Proof.
  revert s. induction l as [|t l IH]; intros s Hs Hstep; simpl.
  - by intros [= <-].
  - intros (s1 & Hbody & Hrest)%bind_Ok. apply (IH s1); [|  |done].
    + eapply Hstep; [left|done..].
    + intros s0 t0 s2 Hin. apply Hstep. by right.
Qed.

(** What a successful [write_vector] did. *)
Lemma write_vector_Ok (color : list byte) (canvas canvas' : ndarray) (vec : vector) :
  write_vector color canvas vec = Ok canvas' ->
  exists x y i j c a n v,
    vec_x vec = Some x /\ vec_y vec = Some y /\
    index (rows canvas) y = Ok i /\ index (cols canvas) x = Ok j /\
    broadcast3 color = Ok c /\
    vec_alpha vec = Some a /\ Py.int (mul a (of_int 255)) = Ok n /\
    to_uint8 n = Ok v /\
    canvas' = set_alpha (set_rgb canvas i j c) i j v.
Proof.
  unfold write_vector.
  intros (x & Hx & (y & Hy & (i & Hi & (j & Hj & (c & Hc &
    (a & Ha & (n & Hn & (v & Hv & [= <-])%bind_Ok)%bind_Ok)%bind_Ok)
    %bind_Ok)%bind_Ok)%bind_Ok)%bind_Ok)%bind_Ok.
  exists x, y, i, j, c, a, n, v.
  destruct (vec_x vec), (vec_y vec), (vec_alpha vec); simplify_eq/=. done.
Qed.

Lemma write_vector_shape (color : list byte) (canvas canvas' : ndarray) (vec : vector) :
  write_vector color canvas vec = Ok canvas' ->
  rows canvas' = rows canvas /\ cols canvas' = cols canvas.
Proof.
  intros (x & y & i & j & c & a & n & v & _ & _ & _ & _ & _ & _ & _ & _ & ->)%write_vector_Ok.
  done.
Qed.

Lemma write_vector_target (color : list byte) (canvas canvas' : ndarray) (vec : vector) :
  write_vector color canvas vec = Ok canvas' -> is_Some (target canvas vec).
Proof.
  intros (x & y & i & j & c & a & n & v & Hx & Hy & Hi & Hj & _)%write_vector_Ok.
  unfold target. rewrite Hx, Hy, Hi, Hj. by eexists.
Qed.

(** A write leaves every other cell as it was. *)
Lemma write_vector_other (color : list byte) (canvas canvas' : ndarray) (vec : vector)
  (yx : nat * nat) :
  write_vector color canvas vec = Ok canvas' ->
  target canvas vec <> Some yx ->
  at_index canvas' yx = at_index canvas yx.
Proof.
  intros (x & y & i & j & c & a & n & v & Hx & Hy & Hi & Hj & _ & _ & _ & _ & ->)%write_vector_Ok.
  unfold target. rewrite Hx, Hy, Hi, Hj. intros Hne.
  unfold at_index, set_alpha, set_rgb, update. simpl.
  destruct yx as [y' x']. simpl.
  rewrite !decide_False; [done|intros [-> ->]; done..].
Qed.

Lemma index_Ok (n : nat) (i : Z) (k : nat) :
  index n i = Ok k ->
  (k < n)%nat /\ (Z.of_nat k = i \/ Z.of_nat k = i + Z.of_nat n /\ i < 0).
Proof.
  unfold index. repeat case_decide; intros [= <-]; lia.
Qed.

Lemma index_in_range (n : nat) (k : nat) :
  (k < n)%nat -> index n (Z.of_nat k) = Ok k.
Proof. intros Hk. unfold index. rewrite decide_True by lia. f_equal. lia. Qed.

(** A negative subscript no smaller than [-n] counts from the end. *)
Lemma index_negative (n : nat) (i : Z) :
  - Z.of_nat n <= i < 0 -> index n i = Ok (Z.to_nat (i + Z.of_nat n)).
Proof.
  intros Hi. unfold index. rewrite decide_False by lia. by rewrite decide_True.
Qed.

Lemma index_out_of_range (n : nat) (i : Z) :
  i < - Z.of_nat n \/ Z.of_nat n <= i -> index n i = Raise IndexError.
Proof. intros Hi. unfold index. rewrite !decide_False by lia. done. Qed.

End DecoderFacts.

(** ** Properties of [convert_from_ccvi] *)

Section FormatSelection.
Import Float64 Examples Documents.

Lemma any_alpha_below_255_true (canvas : ndarray) :
  any_alpha_below_255 canvas = true <->
  exists y x, (y < rows canvas)%nat /\ (x < cols canvas)%nat /\
              u8 (alpha (cell canvas y x)) < 255.
Proof.
  unfold any_alpha_below_255. rewrite existsb_exists. split.
  - intros ([y x] & Hin%list_elem_of_In%elem_of_indices & Ha%bool_decide_eq_true).
    exists y, x. simpl in *. tauto.
  - intros (y & x & Hy & Hx & Ha). exists (y, x). split.
    + apply list_elem_of_In, elem_of_indices. done.
    + by apply bool_decide_eq_true.
Qed.

(** C9: once the vectors are replayed on the canvas, the image saved is
    the RGBA canvas (extension png) if and only if some cell of the canvas
    has alpha below 255; otherwise it is the canvas converted to RGB, its
    alpha band dropped (extension jpeg). *)
Theorem format_selection (data : ccvi) (canvas : ndarray) :
  replay data = Ok canvas ->
  let partial_alpha :=
    exists y x, (y < rows canvas)%nat /\ (x < cols canvas)%nat /\
                u8 (alpha (cell canvas y x)) < 255 in
  exists ext img,
    convert_from_ccvi data = Ok (ext, img) /\
    (img = RGBA_image canvas <-> partial_alpha) /\
    (ext = png <-> partial_alpha) /\
    (img = convert_RGB canvas <-> ~ partial_alpha) /\
    (ext = jpeg <-> ~ partial_alpha).
Proof.
  intros Hreplay partial_alpha. unfold convert_from_ccvi. rewrite Hreplay. simpl.
  unfold select_format.
  pose proof (any_alpha_below_255_true canvas) as Hany. fold partial_alpha in Hany.
  destruct (any_alpha_below_255 canvas).
  - assert (Hp : partial_alpha) by (by apply Hany). clear Hany.
    do 2 eexists. split; [done|]. unfold convert_RGB.
    repeat split; try done; intros; by exfalso.
  - assert (Hp : ~ partial_alpha) by (intros Hp%Hany; done). clear Hany.
    do 2 eexists. split; [done|]. unfold convert_RGB.
    repeat split; try done; intros; by exfalso.
Qed.

Lemma format_selection_witness :
  let canvas := two_by_two_canvas in
  let partial_alpha :=
    exists y x, (y < rows canvas)%nat /\ (x < cols canvas)%nat /\
                u8 (alpha (cell canvas y x)) < 255 in
  exists ext img,
    convert_from_ccvi two_by_two_encoded = Ok (ext, img) /\
    (img = RGBA_image canvas <-> partial_alpha) /\
    (ext = png <-> partial_alpha) /\
    (img = convert_RGB canvas <-> ~ partial_alpha) /\
    (ext = jpeg <-> ~ partial_alpha).
Proof.
  apply (format_selection two_by_two_encoded two_by_two_canvas).
  vm_compute. reflexivity.
Defined.

End FormatSelection.

Section DecoderTheorems.
Import Float64 Examples Documents ClaimedDecoder.

Lemma write_vector_same_shape (h w : Z) (color : list byte) (canvas canvas' : ndarray)
  (vec : vector) :
  same_shape h w canvas -> write_vector color canvas vec = Ok canvas' ->
  same_shape h w canvas'.
Proof.
  intros [Hr Hc] [Hr' Hc']%write_vector_shape. split; congruence.
Qed.

Lemma write_plane_same_shape (h w : Z) (canvas canvas' : ndarray) (pl : plane) :
  same_shape h w canvas -> write_plane canvas pl = Ok canvas' ->
  same_shape h w canvas'.
Proof.
  intros Hshape. unfold write_plane.
  intros (color & _ & (vectors & _ & Hloop)%bind_Ok)%bind_Ok.
  eapply (for_each_invariant _ (same_shape h w)); [exact Hshape| |exact Hloop].
  intros s0 t0 s1 _. apply write_vector_same_shape.
Qed.

Lemma zeros_Ok (h w : Z) (canvas : ndarray) :
  zeros h w = Ok canvas ->
  0 <= h /\ 0 <= w /\ canvas = Ndarray (Z.to_nat h) (Z.to_nat w) (fun _ _ => zero_cell).
Proof. unfold zeros. case_decide; [|done]. intros [= <-]. tauto. Qed.

(** A subscript outside [[-n, n)] stops the write with an [IndexError]. *)
Lemma write_vector_out_of_range (h w : Z) (color : list byte) (canvas : ndarray)
  (vec : vector) (x y : Z) :
  same_shape h w canvas ->
  vec_x vec = Some x -> vec_y vec = Some y ->
  x < - w \/ w <= x \/ y < - h \/ h <= y ->
  write_vector color canvas vec = Raise IndexError.
Proof.
  intros [Hr Hc] Hx Hy Hout. unfold write_vector. rewrite Hx, Hy. simpl.
  destruct (index (rows canvas) y) as [i|e] eqn:Hi.
  - simpl. apply index_Ok in Hi. rewrite index_out_of_range; [done|].
    rewrite Hr in Hi. rewrite Hc. lia.
  - unfold index in Hi. repeat case_decide; by simplify_eq.
Qed.

(** C5, as the specification states it, fails: a vector at [x = -1] on a
    canvas two cells wide is accepted. *)
Lemma out_of_bounds_accepted : ~ out_of_bounds_rejected negative_x.
Proof.
  intros Hclaim. unfold out_of_bounds_rejected in Hclaim.
  destruct (Hclaim 2 1 _ _ _ _ (-1) 0 eq_refl eq_refl eq_refl
              (list_elem_of_here _ _) eq_refl (list_elem_of_here _ _)
              eq_refl eq_refl) as (e & He).
  - unfold outside_canvas. lia.
  - vm_compute in He. discriminate He.
Qed.

(** The vector at [x = -1] is written to the last column. *)
Lemma negative_x_wraps :
  exists img,
    convert_from_ccvi negative_x = Ok (png, img) /\
    image_pixel img 0 1 = Rgba "255" "000" "000" "255" /\
    image_pixel img 0 0 = zero_cell.
Proof. eexists. split; [vm_compute; reflexivity|]. split; reflexivity. Qed.

(** C5, amended: decoding raises for every document that holds a vector
    with [x >= width], [x < -width], [y >= height] or [y < -height], and
    the write of such a vector on the canvas is an [IndexError]. (A
    negative coordinate no smaller than [-width], [-height] is a valid
    numpy subscript, counted from the end.) *)
Theorem out_of_range_vector_raises (data : ccvi) (w h : Z) (planes : list plane)
  (pl : plane) (vectors : list vector) (vec : vector) (x y : Z) :
  ccvi_width data = Some w -> ccvi_height data = Some h ->
  ccvi_planes data = Some planes ->
  pl ∈ planes -> plane_vectors pl = Some vectors -> vec ∈ vectors ->
  vec_x vec = Some x -> vec_y vec = Some y ->
  x < - w \/ w <= x \/ y < - h \/ h <= y ->
  raises (convert_from_ccvi data) /\
  (forall color canvas, same_shape h w canvas ->
     write_vector color canvas vec = Raise IndexError).
Proof.
  intros Hw Hh Hplanes Hpl Hvectors Hvec Hx Hy Hout. split.
  - unfold convert_from_ccvi. apply raises_bind_l.
    unfold replay. rewrite Hw, Hh, Hplanes. simpl.
    destruct (zeros h w) as [canvas|e] eqn:Hzeros; [|apply raises_Raise].
    apply zeros_Ok in Hzeros as (Hh0 & Hw0 & ->). simpl.
    apply (for_each_raises _ (same_shape h w) _ _ pl); [done| |done|].
    { intros s0 t0 s1. apply write_plane_same_shape. }
    intros s0 Hs0. unfold write_plane.
    destruct (plane_color pl) as [color|]; [|apply raises_Raise].
    rewrite Hvectors. simpl.
    apply (for_each_raises _ (same_shape h w) _ _ vec); [done| |done|].
    { intros s1 t1 s2. apply write_vector_same_shape. }
    intros s1 Hs1. erewrite write_vector_out_of_range by done.
    apply raises_Raise.
  - intros color canvas Hshape. by eapply write_vector_out_of_range.
Qed.

Lemma out_of_range_vector_raises_witness :
  raises (convert_from_ccvi x_is_width) /\
  (forall color canvas, same_shape 1 2 canvas ->
     write_vector color canvas
       (Vector (Some 2) (Some 0) (Some f0) (Some f0) (Some f1)) = Raise IndexError).
Proof.
  apply (out_of_range_vector_raises x_is_width 2 1 _ _ _ _ 2 0
           eq_refl eq_refl eq_refl (list_elem_of_here _ _) eq_refl
           (list_elem_of_here _ _) eq_refl eq_refl).
  lia.
Defined.

Lemma for_each_fmap_ext {T S : Type} (body : S -> T -> result S) (f : T -> T)
  (s : S) (l : list T) :
  (forall s0 t, body s0 (f t) = body s0 t) ->
  for_each body s (f <$> l) = for_each body s l.
Proof.
  intros Hf. revert s. induction l as [|t l IH]; intros s; csimpl; [done|].
  rewrite Hf. destruct (body s t); simpl; [apply IH|done].
Qed.

Lemma write_plane_forget_unread (canvas : ndarray) (pl : plane) :
  write_plane canvas (forget_unread_plane pl) = write_plane canvas pl.
Proof.
  unfold write_plane, forget_unread_plane. simpl.
  destruct (plane_color pl) as [color|]; [|done].
  destruct (plane_vectors pl) as [vectors|]; [|done]. simpl.
  apply for_each_fmap_ext. reflexivity.
Qed.

Lemma replay_forget_unread (data : ccvi) :
  replay (forget_unread data) = replay data.
Proof.
  unfold replay, forget_unread. simpl.
  destruct (ccvi_width data) as [w|]; [|done].
  destruct (ccvi_height data) as [h|]; [|done]. simpl.
  destruct (zeros h w) as [canvas|]; [|done]. simpl.
  destruct (ccvi_planes data) as [planes|]; [|done]. simpl.
  apply for_each_fmap_ext, write_plane_forget_unread.
Qed.

Lemma broadcast3_Ok (color : list byte) (c : byte * byte * byte) :
  broadcast3 color = Ok c -> length color = 1%nat \/ length color = 3%nat.
Proof.
  destruct color as [|c1 [|c2 [|c3 [|c4 color]]]]; simpl; intros [=]; auto.
Qed.

Lemma write_vector_unreadable (color : list byte) (canvas : ndarray) (vec : vector) :
  unreadable_vector vec -> raises (write_vector color canvas vec).
Proof.
  intros Hvec. destruct (result_cases (write_vector color canvas vec))
    as [(canvas' & Hok)|]; [|done].
  apply write_vector_Ok in Hok
    as (x & y & i & j & c & a & n & v & Hx & Hy & _ & _ & _ & Ha & _).
  destruct Hvec as [?|[?|?]]; congruence.
Qed.

Lemma write_plane_unreadable (canvas : ndarray) (pl : plane) :
  unreadable_plane pl -> raises (write_plane canvas pl).
Proof.
  unfold write_plane.
  intros [Hc|[Hv|[(vectors & vec & Hv & Hin & Hvec)|(color & vectors & Hc & Hv & Hne & H1 & H3)]]].
  - rewrite Hc. apply raises_Raise.
  - rewrite Hv. destruct (plane_color pl); apply raises_Raise.
  - rewrite Hv. destruct (plane_color pl) as [color|]; [|apply raises_Raise]. simpl.
    apply (for_each_raises _ (fun _ => True) _ _ vec); [done|done|done|].
    intros s0 _. by apply write_vector_unreadable.
  - rewrite Hc, Hv. simpl. destruct vectors as [|vec vectors]; [done|]. simpl.
    apply raises_bind_l.
    destruct (result_cases (write_vector color canvas vec))
      as [(canvas' & Hok)|]; [|done].
    apply write_vector_Ok in Hok
      as (x & y & i & j & c & a & n & v & _ & _ & _ & _ & Hb%broadcast3_Ok & _).
    lia.
Qed.

(** C6, as the specification states it, fails: a document without
    [margin_error], whose vector has neither [height] nor [saturation], is
    decoded. *)
Lemma incomplete_accepted : ~ incomplete_rejected unread_keys_missing.
Proof.
  intros Hclaim. destruct Hclaim as (e & He).
  - intros (_ & _ & [m Hm] & _). discriminate Hm.
  - vm_compute in He. discriminate He.
Qed.

(** C6, amended: decoding raises whenever a key the decoder reads is
    absent (the width, the height, the planes, the colour or the vectors
    of a plane, the x, y or alpha of a vector), and whenever a plane with
    at least one vector has a colour of neither three elements nor one. The
    keys [margin_error], [height] and [saturation] are never read:
    removing them changes nothing. *)
Theorem unreadable_document_raises (data : ccvi) :
  (unreadable data -> raises (convert_from_ccvi data)) /\
  convert_from_ccvi (forget_unread data) = convert_from_ccvi data.
Proof.
  split.
  - intros Hdata. unfold convert_from_ccvi. apply raises_bind_l. unfold replay.
    destruct Hdata as [Hw|[Hh|[Hp|(planes & pl & Hp & Hin & Hpl)]]].
    + rewrite Hw. apply raises_Raise.
    + rewrite Hh. destruct (ccvi_width data); apply raises_Raise.
    + rewrite Hp. destruct (ccvi_width data) as [w|]; [|apply raises_Raise].
      destruct (ccvi_height data) as [h|]; [|apply raises_Raise]. simpl.
      destruct (zeros h w); apply raises_Raise.
    + rewrite Hp. destruct (ccvi_width data) as [w|]; [|apply raises_Raise].
      destruct (ccvi_height data) as [h|]; [|apply raises_Raise]. simpl.
      destruct (zeros h w) as [canvas|]; [|apply raises_Raise]. simpl.
      apply (for_each_raises _ (fun _ => True) _ _ pl); [done|done|done|].
      intros s0 _. by apply write_plane_unreadable.
  - unfold convert_from_ccvi. by rewrite replay_forget_unread.
Qed.

Lemma unreadable_document_raises_witness :
  raises (convert_from_ccvi alpha_missing) /\
  convert_from_ccvi (forget_unread alpha_missing) = convert_from_ccvi alpha_missing.
Proof.
  split; [|apply (unreadable_document_raises alpha_missing)].
  apply (unreadable_document_raises alpha_missing).
  right; right; right. do 2 eexists.
  split; [reflexivity|]. split; [apply list_elem_of_here|].
  right; right; left. do 2 eexists.
  split; [reflexivity|]. split; [apply list_elem_of_here|].
  right; right. reflexivity.
Defined.

(** [int] drops the fraction of a finite float: the quotient of its
    signed mantissa by the power of two, rounded toward zero. *)
Lemma to_int_truncates (s : bool) (m : positive) (e : Z) :
  to_int (S754_finite s m e) =
  Some (Z.quot ((if s then Zneg m else Zpos m) * 2 ^ Z.max e 0) (2 ^ Z.max (- e) 0)).
Proof.
  unfold to_int, magnitude. f_equal.
  destruct (Z.le_gt_cases 0 e) as [He|He].
  - rewrite Z.shiftl_mul_pow2 by done.
    rewrite (Z.max_l e 0), (Z.max_r (- e) 0) by lia.
    rewrite Z.pow_0_r, Z.quot_1_r. destruct s; lia.
  - rewrite Z.shiftl_div_pow2 by lia.
    rewrite (Z.max_r e 0), (Z.max_l (- e) 0) by lia.
    rewrite Z.pow_0_r, Z.mul_1_r.
    assert (0 < 2 ^ (- e)) by (apply Z.pow_pos_nonneg; lia).
    destruct s.
    + change (Zneg m) with (- Zpos m). rewrite Z.quot_opp_l by lia.
      rewrite Z.quot_div_nonneg by lia. done.
    + rewrite Z.quot_div_nonneg by lia. done.
Qed.

(** What a write that succeeds does: the cell the vector addresses
    receives the colour of the plane and [int(alpha * 255)], which lies in
    [[0, 255]]; every other cell keeps its value. *)
Lemma write_vector_effect (color : list byte) (canvas canvas' : ndarray)
  (vec : vector) :
  write_vector color canvas vec = Ok canvas' ->
  exists a yx c n,
    vec_alpha vec = Some a /\
    target canvas vec = Some yx /\
    broadcast3 color = Ok c /\
    to_int (mul a (of_int 255)) = Some n /\
    0 <= n <= 255 /\
    rgb3 (at_index canvas' yx) = [c.1.1; c.1.2; c.2] /\
    u8 (alpha (at_index canvas' yx)) = n /\
    (forall other, other <> yx -> at_index canvas' other = at_index canvas other).
Proof.
  intros Hwrite.
  apply write_vector_Ok in Hwrite
    as (x & y & i & j & c & a & n & v & Hx & Hy & Hi & Hj & Hc & Ha & Hn & Hv & ->).
  exists a, (i, j), c, n.
  assert (Htarget : target canvas vec = Some (i, j))
    by (unfold target; by rewrite Hx, Hy, Hi, Hj).
  split; [done|]. split; [done|]. split; [done|].
  unfold Py.int in Hn. destruct (to_int (mul a (of_int 255))) as [n'|]; [|done].
  injection Hn as ->. split; [done|].
  apply to_uint8_Ok in Hv. pose proof (u8_range v).
  split; [lia|].
  unfold at_index, set_alpha, set_rgb, update. simpl.
  rewrite !decide_True by done. simpl. split; [done|]. split; [done|].
  intros [y' x'] Hne. simpl.
  rewrite !decide_False; [done|intros [-> ->]; done..].
Qed.

Lemma target_same_shape (canvas canvas' : ndarray) (vec : vector) :
  rows canvas' = rows canvas -> cols canvas' = cols canvas ->
  target canvas' vec = target canvas vec.
Proof. intros Hr Hc. unfold target. by rewrite Hr, Hc. Qed.

Lemma write_vectors_shape (color : list byte) (canvas canvas' : ndarray)
  (vectors : list vector) :
  for_each (write_vector color) canvas vectors = Ok canvas' ->
  rows canvas' = rows canvas /\ cols canvas' = cols canvas.
Proof.
  apply (for_each_invariant _
           (fun c => rows c = rows canvas /\ cols c = cols canvas)); [done|].
  intros s0 t0 s1 _ [Hr Hc] [Hr' Hc']%write_vector_shape. split; congruence.
Qed.

Lemma write_plane_shape (canvas canvas' : ndarray) (pl : plane) :
  write_plane canvas pl = Ok canvas' ->
  rows canvas' = rows canvas /\ cols canvas' = cols canvas.
Proof.
  unfold write_plane.
  intros (color & _ & (vectors & _ & Hloop)%bind_Ok)%bind_Ok.
  by eapply write_vectors_shape.
Qed.

Lemma write_planes_shape (canvas canvas' : ndarray) (planes : list plane) :
  for_each write_plane canvas planes = Ok canvas' ->
  rows canvas' = rows canvas /\ cols canvas' = cols canvas.
Proof.
  apply (for_each_invariant _
           (fun c => rows c = rows canvas /\ cols c = cols canvas)); [done|].
  intros s0 t0 s1 _ [Hr Hc] [Hr' Hc']%write_plane_shape. split; congruence.
Qed.

(** Vectors that address other cells leave a cell as it was. *)
Lemma write_vectors_other (color : list byte) (canvas canvas' : ndarray)
  (vectors : list vector) (yx : nat * nat) :
  for_each (write_vector color) canvas vectors = Ok canvas' ->
  (forall v, v ∈ vectors -> target canvas v <> Some yx) ->
  at_index canvas' yx = at_index canvas yx.
Proof.
  revert canvas. induction vectors as [|v vectors IH]; intros canvas; simpl.
  - by intros [= <-].
  - intros (c1 & Hv & Hrest)%bind_Ok Hother.
    destruct (write_vector_shape _ _ _ _ Hv) as [Hr Hc].
    rewrite (IH c1 Hrest).
    + apply (write_vector_other color canvas c1 v yx Hv). apply Hother. left.
    + intros v' Hv'. rewrite (target_same_shape canvas c1) by done.
      apply Hother. by right.
Qed.

Lemma write_planes_other (canvas canvas' : ndarray) (planes : list plane)
  (yx : nat * nat) :
  for_each write_plane canvas planes = Ok canvas' ->
  (forall pl vectors v, pl ∈ planes -> plane_vectors pl = Some vectors ->
     v ∈ vectors -> target canvas v <> Some yx) ->
  at_index canvas' yx = at_index canvas yx.
Proof.
  revert canvas. induction planes as [|pl planes IH]; intros canvas; simpl.
  - by intros [= <-].
  - intros (c1 & Hpl & Hrest)%bind_Ok Hother.
    destruct (write_plane_shape _ _ _ Hpl) as [Hr Hc].
    rewrite (IH c1 Hrest).
    + unfold write_plane in Hpl.
      apply bind_Ok in Hpl as (color & _ & (vectors & Hvs & Hloop)%bind_Ok).
      apply (write_vectors_other color canvas c1 vectors yx Hloop).
      intros v Hv. apply (Hother pl vectors v); [left| |done].
      by destruct (plane_vectors pl); simplify_eq/=.
    + intros pl' vectors v Hpl' Hvs Hv.
      rewrite (target_same_shape canvas c1) by done.
      apply (Hother pl' vectors v); [by right|done..].
Qed.

(** C7, as the specification states it, fails: for [alpha = 0.25] the
    product [alpha * 255] is 63.75; the cell receives 63, not 64. *)
Lemma alpha_not_rounded : ~ alpha_rounded quarter_alpha.
Proof.
  intros Hclaim.
  pose proof (Hclaim (the_canvas (replay quarter_alpha)) _ _ _
    quarter_alpha_vector quarter (0%nat, 0%nat) 64
    eq_refl eq_refl (list_elem_of_here _ _) eq_refl (list_elem_of_here _ _)
    eq_refl eq_refl eq_refl) as Halpha.
  vm_compute in Halpha. discriminate Halpha.
Qed.

(** C7, amended: for every document that decodes and every vector in it,
    the write of the vector puts the colour of its plane and
    [int(alpha * 255)], the product with its fraction dropped (a value in
    [[0, 255]]), in the cell the vector addresses; the canvas returned
    holds them there unless a later vector of the document addresses the
    same cell. *)
Theorem decode_writes_truncated_alpha (data : ccvi) (canvas : ndarray)
  (before after : list plane) (pl : plane) (color : list byte)
  (earlier later : list vector) (vec : vector) :
  replay data = Ok canvas ->
  ccvi_planes data = Some (before ++ pl :: after) ->
  plane_color pl = Some color ->
  plane_vectors pl = Some (earlier ++ vec :: later) ->
  exists a yx c n,
    vec_alpha vec = Some a /\
    target canvas vec = Some yx /\
    broadcast3 color = Ok c /\
    to_int (mul a (of_int 255)) = Some n /\
    0 <= n <= 255 /\
    ((forall v, v ∈ later -> target canvas v <> Some yx) ->
     (forall pl' vectors v, pl' ∈ after -> plane_vectors pl' = Some vectors ->
        v ∈ vectors -> target canvas v <> Some yx) ->
     rgb3 (at_index canvas yx) = [c.1.1; c.1.2; c.2] /\
     u8 (alpha (at_index canvas yx)) = n).
Proof.
  intros Hreplay Hplanes Hcolor Hvectors. unfold replay in Hreplay.
  apply bind_Ok in Hreplay as (w & _ & (h & _ & (c0 & _ &
    (planes & Hp & Hloop)%bind_Ok)%bind_Ok)%bind_Ok).
  rewrite Hplanes in Hp. injection Hp as <-.
  rewrite for_each_app in Hloop. apply bind_Ok in Hloop as (c1 & _ & Hloop).
  simpl in Hloop. apply bind_Ok in Hloop as (c2 & Hpl & Hafter).
  unfold write_plane in Hpl. rewrite Hcolor, Hvectors in Hpl. simpl in Hpl.
  rewrite for_each_app in Hpl. apply bind_Ok in Hpl as (c3 & _ & Hpl).
  simpl in Hpl. apply bind_Ok in Hpl as (c4 & Hvec & Hlater).
  destruct (write_vector_shape _ _ _ _ Hvec) as [Hr4 Hc4].
  destruct (write_vectors_shape _ _ _ _ Hlater) as [Hr2 Hc2].
  destruct (write_planes_shape _ _ _ Hafter) as [Hr Hc].
  destruct (write_vector_effect _ _ _ _ Hvec)
    as (a & yx & c & n & Ha & Htarget & Hbc & Hn & Hrange & Hrgb & Halpha & _).
  exists a, yx, c, n.
  assert (Hsame : forall v, target canvas v = target c3 v)
    by (intros v; apply target_same_shape; congruence).
  split; [done|]. split; [by rewrite Hsame|]. do 3 (split; [done|]).
  intros Hl Ha'.
  assert (Hkeep : at_index canvas yx = at_index c4 yx).
  { rewrite (write_planes_other c2 canvas after yx Hafter).
    - apply (write_vectors_other color c4 c2 later yx Hlater).
      intros v Hv. rewrite (target_same_shape canvas c4) by congruence.
      by apply Hl.
    - intros pl' vectors v Hpl' Hvs Hv.
      rewrite (target_same_shape canvas c2) by congruence.
      by eapply Ha'. }
  by rewrite Hkeep.
Qed.

Lemma decode_writes_truncated_alpha_witness :
  let canvas := the_canvas (replay quarter_alpha) in
  exists a yx c n,
    vec_alpha quarter_alpha_vector = Some a /\
    target canvas quarter_alpha_vector = Some yx /\
    broadcast3 ["255"; "000"; "000"]%byte = Ok c /\
    to_int (mul a (of_int 255)) = Some n /\
    0 <= n <= 255 /\
    ((forall v, v ∈ [] -> target canvas v <> Some yx) ->
     (forall pl' vectors v, pl' ∈ [] -> plane_vectors pl' = Some vectors ->
        v ∈ vectors -> target canvas v <> Some yx) ->
     rgb3 (at_index canvas yx) = [c.1.1; c.1.2; c.2] /\
     u8 (alpha (at_index canvas yx)) = n).
Proof.
  apply (decode_writes_truncated_alpha quarter_alpha
           (the_canvas (replay quarter_alpha)) [] []
           (Plane (Some ["255"; "000"; "000"]%byte) (Some [quarter_alpha_vector]))
           ["255"; "000"; "000"]%byte [] [] quarter_alpha_vector);
    reflexivity.
Defined.

End DecoderTheorems.

(** ** Encoding and decoding again *)

Section RoundTrip.
Import Float64 Examples Documents.

(** The alpha of a cell survives [a / 255.0] followed by
    [int(alpha * 255)], for each of the 256 bytes. *)
Lemma alpha_round_trip (b : byte) :
  Py.int (mul (div (of_int (u8 b)) f255) (of_int 255)) = Ok (u8 b).
Proof. destruct b; vm_compute; reflexivity. Qed.

(** Writing the vector sampled at a cell of the mask puts that cell of
    the array on the canvas. *)
Lemma write_sample (arr canvas : ndarray) (color : rgba) (yx : nat * nat) :
  shape_of arr canvas ->
  yx ∈ argwhere arr color ->
  exists canvas',
    write_vector (rgb3 color) canvas (sample arr yx) = Ok canvas' /\
    shape_of arr canvas' /\
    restored arr canvas' yx /\
    (forall other, restored arr canvas other -> restored arr canvas' other).
Proof.
  intros [Hr Hc] (Hy & Hx & Hrgb)%elem_of_argwhere.
  unfold write_vector, sample. simpl.
  rewrite Hr, Hc, !index_in_range by done. simpl.
  change (div (of_int (u8 (alpha (at_index arr yx)))) f255)
    with (alpha_of (at_index arr yx)).
  unfold alpha_of. rewrite alpha_round_trip. simpl.
  rewrite to_uint8_u8. simpl. eexists. split; [done|].
  split; [done|]. unfold restored, at_index, set_alpha, set_rgb, update. simpl.
  split.
  - rewrite !decide_True by done. simpl.
    unfold at_index in Hrgb. injection Hrgb as Hred Hgreen Hblue.
    destruct (cell arr yx.1 yx.2). simpl in *. congruence.
  - intros [y' x']. simpl. intros Hother.
    destruct (decide (y' = yx.1 /\ x' = yx.2)) as [[-> ->]|]; [|done].
    rewrite decide_True by done. simpl.
    unfold at_index in Hrgb. injection Hrgb as Hred Hgreen Hblue.
    destruct (cell arr yx.1 yx.2). simpl in *. congruence.
Qed.

Lemma write_samples (arr canvas : ndarray) (color : rgba) (l : list (nat * nat)) :
  shape_of arr canvas ->
  l ⊆ argwhere arr color ->
  exists canvas',
    for_each (write_vector (rgb3 color)) canvas (sample arr <$> l) = Ok canvas' /\
    shape_of arr canvas' /\
    (forall yx, yx ∈ l -> restored arr canvas' yx) /\
    (forall other, restored arr canvas other -> restored arr canvas' other).
Proof.
  revert canvas. induction l as [|yx l IH]; intros canvas Hshape Hsub; csimpl.
  - exists canvas. split; [done|]. split; [done|]. split; [|done].
    by intros yx ?%elem_of_nil.
  - destruct (write_sample arr canvas color yx Hshape) as (c1 & -> & Hs1 & Hyx & Hkeep1).
    { apply Hsub. left. }
    simpl. destruct (IH c1 Hs1) as (c2 & -> & Hs2 & Hl & Hkeep2).
    { intros k Hk. apply Hsub. by right. }
    exists c2. split; [done|]. split; [done|]. split.
    + intros k [->|Hk]%elem_of_cons; [by apply Hkeep2|by apply Hl].
    + intros other Hother. by apply Hkeep2, Hkeep1.
Qed.

Lemma write_full_planes (arr canvas : ndarray) (colors : list rgba) (planes : list plane) :
  shape_of arr canvas ->
  Forall2 (fun color pl =>
    pl = Plane (Some (rgb3 color)) (Some (sample arr <$> argwhere arr color)))
    colors planes ->
  exists canvas',
    for_each write_plane canvas planes = Ok canvas' /\
    shape_of arr canvas' /\
    (forall color yx, color ∈ colors -> yx ∈ argwhere arr color ->
       restored arr canvas' yx).
Proof.
  intros Hshape Hplanes. revert canvas Hshape.
  assert (Hgen : forall canvas, shape_of arr canvas ->
    exists canvas',
      for_each write_plane canvas planes = Ok canvas' /\
      shape_of arr canvas' /\
      (forall color yx, color ∈ colors -> yx ∈ argwhere arr color ->
         restored arr canvas' yx) /\
      (forall other, restored arr canvas other -> restored arr canvas' other)).
  { induction Hplanes as [|color pl colors planes -> _ IH]; intros canvas Hshape.
    - exists canvas. split; [done|]. split; [done|]. split; [|done].
      by intros color yx ?%elem_of_nil.
    - simpl. unfold write_plane at 1. simpl.
      destruct (write_samples arr canvas color (argwhere arr color) Hshape)
        as (c1 & -> & Hs1 & Hl & Hkeep1); [done|]. simpl.
      destruct (IH c1 Hs1) as (c2 & -> & Hs2 & Hrest & Hkeep2).
      exists c2. split; [done|]. split; [done|]. split.
      + intros color' yx [->|Hc]%elem_of_cons Hyx.
        * by apply Hkeep2, Hl.
        * by eapply Hrest.
      + intros other Hother. by apply Hkeep2, Hkeep1. }
  intros canvas Hshape.
  destruct (Hgen canvas Hshape) as (canvas' & ? & ? & ? & _). by exists canvas'.
Qed.

Lemma u8_255 (b : byte) : 255 <= u8 b -> b = "255"%byte.
Proof.
  intros Hb. pose proof (u8_range b). apply u8_inj.
  change (u8 "255") with 255. lia.
Qed.

(** The pixels of the saved image are the cells of the canvas. *)
Lemma select_format_size (canvas : ndarray) :
  image_size (select_format canvas).2 = (rows canvas, cols canvas).
Proof. unfold select_format. by destruct (any_alpha_below_255 canvas). Qed.

Lemma select_format_pixel (canvas : ndarray) (y x : nat) :
  (y < rows canvas)%nat -> (x < cols canvas)%nat ->
  image_pixel (select_format canvas).2 y x = cell canvas y x.
Proof.
  intros Hy Hx. unfold select_format.
  destruct (any_alpha_below_255 canvas) eqn:Hany; simpl; [done|].
  assert (Ha : ~ u8 (alpha (cell canvas y x)) < 255).
  { intros Ha. apply not_true_iff_false in Hany. apply Hany.
    apply any_alpha_below_255_true. by exists y, x. }
  destruct (cell canvas y x) as [r g b a]. simpl in *. f_equal.
  symmetry. apply u8_255. lia.
Qed.

(** Encoding with [margin_error = 0.0] and decoding gives back every cell
    of the array. *)
Lemma zero_error_round_trip_exact (arr : ndarray) :
  Z.of_nat (rows arr * cols arr) < 2 ^ 53 ->
  exists data ext img,
    convert_to_ccvi arr f0 = Ok data /\
    convert_from_ccvi data = Ok (ext, img) /\
    image_size img = (rows arr, cols arr) /\
    forall y x, (y < rows arr)%nat -> (x < cols arr)%nat ->
      image_pixel img y x = cell arr y x.
Proof.
  intros Hsize.
  destruct (convert_to_ccvi_zero_error arr Hsize) as (planes & Hdata & Hplanes).
  destruct (write_full_planes arr
              (Ndarray (rows arr) (cols arr) (fun _ _ => zero_cell))
              (unique (reshape arr)) planes) as (canvas & Hloop & [Hr Hc] & Hall).
  { done. }
  { eapply Forall2_impl; [exact Hplanes|]. by intros color pl (_ & _ & _ & ->). }
  eexists. exists (select_format canvas).1, (select_format canvas).2.
  split; [exact Hdata|].
  unfold convert_from_ccvi, replay, zeros. simpl.
  rewrite decide_True by lia. simpl. rewrite !Nat2Z.id, Hloop.
  simpl. split; [by destruct (select_format canvas)|].
  split; [rewrite select_format_size; congruence|].
  intros y x Hy Hx. rewrite select_format_pixel by lia.
  apply (Hall (cell arr y x) (y, x)).
  - apply elem_of_unique, elem_of_reshape. by exists (y, x).
  - by apply (argwhere_own_color arr (y, x)).
Qed.

(** C4: encoding an RGBA array with [margin_error = 0.0] and decoding the
    result reproduces, at every pixel, the RGB bytes exactly and the alpha
    within one unit of 255 (in fact exactly). The array has fewer than
    [2^53] cells. *)
Theorem zero_error_round_trip (arr : ndarray) :
  Z.of_nat (rows arr * cols arr) < 2 ^ 53 ->
  exists data ext img,
    convert_to_ccvi arr f0 = Ok data /\
    convert_from_ccvi data = Ok (ext, img) /\
    image_size img = (rows arr, cols arr) /\
    forall y x, (y < rows arr)%nat -> (x < cols arr)%nat ->
      rgb3 (image_pixel img y x) = rgb3 (cell arr y x) /\
      Z.abs (u8 (alpha (image_pixel img y x)) - u8 (alpha (cell arr y x))) <= 1.
Proof.
  intros Hsize.
  destruct (zero_error_round_trip_exact arr Hsize)
    as (data & ext & img & Hdata & Himg & Hshape & Hpixels).
  exists data, ext, img. split; [done|]. split; [done|]. split; [done|].
  intros y x Hy Hx. rewrite Hpixels by done. split; [done|]. lia.
Qed.

Lemma zero_error_round_trip_witness :
  exists data ext img,
    convert_to_ccvi two_by_two f0 = Ok data /\
    convert_from_ccvi data = Ok (ext, img) /\
    image_size img = (rows two_by_two, cols two_by_two) /\
    forall y x, (y < rows two_by_two)%nat -> (x < cols two_by_two)%nat ->
      rgb3 (image_pixel img y x) = rgb3 (cell two_by_two y x) /\
      Z.abs (u8 (alpha (image_pixel img y x)) - u8 (alpha (cell two_by_two y x))) <= 1.
Proof.
  apply (zero_error_round_trip two_by_two). vm_compute. reflexivity.
Defined.

End RoundTrip.

(** ** What every encoded document satisfies *)

Section EncoderInvariants.
Import Float64 Examples MoreNotions Ui.

Lemma Forall2_produced_elem (arr : ndarray) (m : float) (colors : list rgba)
  (planes : list plane) (pl : plane) :
  Forall2 (produced arr m) colors planes -> pl ∈ planes ->
  exists color, color ∈ colors /\ produced arr m color pl.
Proof.
  intros Hall Hpl. induction Hall as [|color pl' colors planes Hp _ IH].
  - by apply elem_of_nil in Hpl.
  - apply elem_of_cons in Hpl as [->|Hpl].
    + exists color. split; [left|done].
    + destruct (IH Hpl) as (c & Hc & Hpc). exists c. split; [by right|done].
Qed.

(** X1: every vector the encoder stores in a plane is the sample of a cell
    of the array whose RGB bytes are the colour of that plane: its
    coordinates are inside the array and its height, saturation and alpha
    are those of that cell. The margin is a number of [[0, 1]] and the
    array has fewer than [2^53] cells. *)
Theorem vectors_sample_their_plane (arr : ndarray) (m : float) :
  in_unit_interval m = true ->
  Z.of_nat (rows arr * cols arr) < 2 ^ 53 ->
  exists planes,
    convert_to_ccvi arr m =
      Ok (CcviData (Some (Z.of_nat (cols arr))) (Some (Z.of_nat (rows arr)))
            (Some planes) (Some m)) /\
    forall pl, pl ∈ planes ->
      exists color vectors,
        plane_color pl = Some color /\ plane_vectors pl = Some vectors /\
        forall v, v ∈ vectors -> samples_cell_of arr color v.
Proof.
  intros Hm Hsize.
  destruct (convert_to_ccvi_returns arr m Hm Hsize) as (data & Hdata).
  rewrite Hdata. apply convert_to_ccvi_Ok in Hdata as (planes & -> & Hplanes).
  exists planes. split; [done|]. intros pl Hpl.
  destruct (Forall2_produced_elem _ _ _ _ _ Hplanes Hpl)
    as (color & _ & _ & nv & _ & ->).
  eexists _, _. split; [done|]. split; [done|].
  intros v (yx & -> & Hyx)%list_elem_of_fmap.
  eapply elem_of_sublist in Hyx; [|apply slice_step_sublist].
  apply elem_of_argwhere in Hyx as (Hy & Hx & Hrgb).
  exists yx.1, yx.2. by destruct yx.
Qed.

Lemma vectors_sample_their_plane_witness :
  exists planes,
    convert_to_ccvi five_in_a_row fhalf =
      Ok (CcviData (Some (Z.of_nat (cols five_in_a_row)))
            (Some (Z.of_nat (rows five_in_a_row))) (Some planes) (Some fhalf)) /\
    forall pl, pl ∈ planes ->
      exists color vectors,
        plane_color pl = Some color /\ plane_vectors pl = Some vectors /\
        forall v, v ∈ vectors -> samples_cell_of five_in_a_row color v.
Proof.
  apply (vectors_sample_their_plane five_in_a_row fhalf); vm_compute; reflexivity.
Defined.

Lemma ratio_255_in_unit_interval (n : Z) :
  0 <= n <= 255 -> in_unit_interval (div (of_int n) f255) = true.
Proof.
  intros Hn.
  assert (Hall : forallb (fun k => in_unit_interval (div (of_int k) f255))
                   (seqZ 0 256) = true) by (vm_compute; reflexivity).
  rewrite forallb_forall in Hall. apply Hall, list_elem_of_In, elem_of_seqZ. lia.
Qed.

Lemma mean_in_unit_interval (n : Z) :
  0 <= n <= 765 -> in_unit_interval (div (div (of_int n) f3) f255) = true.
Proof.
  intros Hn.
  assert (Hall : forallb (fun k => in_unit_interval (div (div (of_int k) f3) f255))
                   (seqZ 0 766) = true) by (vm_compute; reflexivity).
  rewrite forallb_forall in Hall. apply Hall, list_elem_of_In, elem_of_seqZ. lia.
Qed.

(** X2: the three attributes stored for a pixel, [height] (the mean of the
    RGB bytes over 255), [saturation] (the largest minus the smallest RGB
    byte, over 255) and [alpha] (the alpha byte over 255), are binary64
    numbers between 0.0 and 1.0, whatever the pixel. *)
Theorem attributes_in_unit_interval (p : rgba) :
  in_unit_interval (height_of p) = true /\
  in_unit_interval (saturation_of p) = true /\
  in_unit_interval (alpha_of p) = true.
Proof.
  pose proof (u8_range (red p)). pose proof (u8_range (green p)).
  pose proof (u8_range (blue p)). pose proof (u8_range (alpha p)).
  split; [|split].
  - apply mean_in_unit_interval. lia.
  - apply ratio_255_in_unit_interval. lia.
  - by apply ratio_255_in_unit_interval.
Qed.

Lemma produced_stride_bounds (arr : ndarray) (m : float) (color : rgba) (pl : plane) :
  produced arr m color pl -> stride_bounds arr m color pl.
Proof.
  intros (Hne & nv & Hnv & ->). unfold stride_bounds, plane_for. simpl.
  exists nv. eexists. split; [done|]. split; [done|].
  pose proof (num_vectors_pos _ _ _ Hnv) as Hnv1.
  pose proof (stride_pos (length (argwhere arr color)) nv) as Hk.
  assert (Hcount : (1 <= length (argwhere arr color))%nat)
    by (destruct (argwhere arr color); [done|simpl; lia]).
  rewrite length_fmap, slice_step_length by done.
  set (count := length (argwhere arr color)) in *.
  set (k := stride count nv) in *.
  pose proof (Nat.div_mod_eq (count + (k - 1)) k) as Hdiv.
  pose proof (Nat.mod_upper_bound (count + (k - 1)) k ltac:(lia)) as Hmod.
  set (n := ((count + (k - 1)) / k)%nat) in *.
  assert (Hn : (1 <= n)%nat) by nia.
  split; [nia|]. split; [nia|]. split.
  - intros Hle. unfold k, stride in *.
    assert (Hq : 1 <= Z.of_nat count / nv) by (apply Z.div_le_lower_bound; lia).
    rewrite Z.max_r in * by lia.
    pose proof (Z.mul_div_le (Z.of_nat count) nv ltac:(lia)).
    nia.
  - intros i. rewrite list_lookup_fmap. f_equal. by apply slice_step_lookup.
Qed.

(** X3: the numbers of the stride sample. For every plane, with [count]
    the population of its mask, [k] the step of the slice and [n] the
    number of vectors stored: [1 <= n <= count], [(n - 1) * k < count <=
    n * k], [n] is at least [num_vectors] whenever [num_vectors <= count],
    and the vector at position [i] samples the mask index at position
    [i * k]. The margin is a number of [[0, 1]] and the array has fewer
    than [2^53] cells. *)
Theorem stride_sample_bounds (arr : ndarray) (m : float) :
  in_unit_interval m = true ->
  Z.of_nat (rows arr * cols arr) < 2 ^ 53 ->
  exists data planes,
    convert_to_ccvi arr m = Ok data /\
    ccvi_planes data = Some planes /\
    Forall2 (stride_bounds arr m) (unique (reshape arr)) planes.
Proof.
  intros Hm Hsize.
  destruct (convert_to_ccvi_returns arr m Hm Hsize) as (data & Hdata).
  exists data. rewrite Hdata.
  apply convert_to_ccvi_Ok in Hdata as (planes & -> & Hplanes).
  exists planes. split; [done|]. split; [done|].
  eapply Forall2_impl; [exact Hplanes|]. apply produced_stride_bounds.
Qed.

Lemma stride_sample_bounds_witness :
  exists data planes,
    convert_to_ccvi five_in_a_row fhalf = Ok data /\
    ccvi_planes data = Some planes /\
    Forall2 (stride_bounds five_in_a_row fhalf) (unique (reshape five_in_a_row)) planes.
Proof.
  apply (stride_sample_bounds five_in_a_row fhalf); vm_compute; reflexivity.
Defined.

Lemma argwhere_rgb3 (arr : ndarray) (c1 c2 : rgba) :
  rgb3 c1 = rgb3 c2 -> argwhere arr c1 = argwhere arr c2.
Proof.
  intros Hrgb. unfold argwhere. apply list_filter_iff.
  intros yx. unfold mask. by rewrite Hrgb.
Qed.

Lemma produced_same_color (arr : ndarray) (m : float) (c1 c2 : rgba) (pl1 pl2 : plane) :
  produced arr m c1 pl1 -> produced arr m c2 pl2 ->
  plane_color pl1 = plane_color pl2 -> pl1 = pl2.
Proof.
  intros (_ & nv1 & Hnv1 & ->) (_ & nv2 & Hnv2 & ->). unfold plane_for. simpl.
  intros Hcolor. assert (Hrgb : rgb3 c1 = rgb3 c2) by congruence.
  rewrite (argwhere_rgb3 arr c1 c2 Hrgb) in *.
  rewrite Hnv1 in Hnv2. injection Hnv2 as <-. by rewrite Hrgb.
Qed.

(** X4: two planes of an encoded document that have the same colour are
    the same plane, vectors included: a colour that is listed twice
    brings the same vectors twice. *)
Theorem same_color_planes_equal (arr : ndarray) (m : float) (data : ccvi)
  (planes : list plane) (pl1 pl2 : plane) :
  convert_to_ccvi arr m = Ok data ->
  ccvi_planes data = Some planes ->
  pl1 ∈ planes -> pl2 ∈ planes ->
  plane_color pl1 = plane_color pl2 ->
  pl1 = pl2.
Proof.
  intros (planes' & -> & Hplanes)%convert_to_ccvi_Ok [= <-] H1 H2.
  destruct (Forall2_produced_elem _ _ _ _ _ Hplanes H1) as (c1 & _ & Hp1).
  destruct (Forall2_produced_elem _ _ _ _ _ Hplanes H2) as (c2 & _ & Hp2).
  by eapply produced_same_color.
Qed.

Lemma same_color_planes_equal_witness :
  plane_at same_rgb_two_alphas_encoded 0 = plane_at same_rgb_two_alphas_encoded 1.
Proof.
  apply (same_color_planes_equal same_rgb_two_alphas f0 same_rgb_two_alphas_encoded
           (default [] (ccvi_planes same_rgb_two_alphas_encoded)));
    [vm_compute; reflexivity|reflexivity| | |reflexivity].
  - apply (list_elem_of_lookup_2 _ 0%nat). reflexivity.
  - apply (list_elem_of_lookup_2 _ 1%nat). reflexivity.
Defined.

Lemma NoDup_fmap_inj_on {A B : Type} (f : A -> B) (l : list A) :
  NoDup l ->
  (NoDup (f <$> l) <-> forall x y, x ∈ l -> y ∈ l -> f x = f y -> x = y).
Proof.
  intros Hl. split.
  - intros Hfl x y Hx Hy Hxy.
    apply list_elem_of_lookup in Hx as (i & Hi), Hy as (j & Hj).
    assert (i = j) as ->; [|congruence].
    eapply (NoDup_lookup (f <$> l)); [done|..];
      rewrite list_lookup_fmap; [by rewrite Hi|by rewrite Hj, Hxy].
  - intros Hinj. by apply NoDup_fmap_2_strong.
Qed.

(** X5: the document has one plane per distinct RGBA row of the array,
    and the colours of its planes are pairwise distinct exactly when no
    RGB value occurs in the array under two alpha values. The margin is
    a number of [[0, 1]] and the array has fewer than [2^53] cells. *)
Theorem plane_colors_distinct_iff (arr : ndarray) (m : float) :
  in_unit_interval m = true ->
  Z.of_nat (rows arr * cols arr) < 2 ^ 53 ->
  exists data planes,
    convert_to_ccvi arr m = Ok data /\
    ccvi_planes data = Some planes /\
    length planes = length (unique (reshape arr)) /\
    (NoDup (plane_color <$> planes) <-> alpha_determined_by_rgb arr).
Proof.
  intros Hm Hsize.
  destruct (convert_to_ccvi_returns arr m Hm Hsize) as (data & Hdata).
  exists data. rewrite Hdata.
  apply convert_to_ccvi_Ok in Hdata as (planes & -> & Hplanes).
  exists planes. split; [done|]. split; [done|].
  split; [symmetry; by eapply Forall2_length|].
  assert (Hcolors : (plane_color <$> planes)
                    = ((fun c => Some (rgb3 c)) <$> unique (reshape arr))).
  { induction Hplanes as [|color pl colors planes' Hpl _ IH]; [done|].
    destruct Hpl as (_ & nv & _ & ->). csimpl. by rewrite IH. }
  rewrite Hcolors, (NoDup_fmap_inj_on _ _ (unique_NoDup _)).
  unfold alpha_determined_by_rgb. split.
  - intros Hinj p q Hp Hq Hrgb. apply Hinj; [by apply elem_of_unique..|].
    by rewrite Hrgb.
  - intros Hdet p q Hp Hq [= Hr Hg Hb].
    apply Hdet; [by apply (elem_of_unique p (reshape arr))|
                 by apply (elem_of_unique q (reshape arr))|].
    unfold rgb3. congruence.
Qed.

Lemma plane_colors_distinct_iff_witness :
  exists data planes,
    convert_to_ccvi two_by_two f0 = Ok data /\
    ccvi_planes data = Some planes /\
    length planes = length (unique (reshape two_by_two)) /\
    (NoDup (plane_color <$> planes) <-> alpha_determined_by_rgb two_by_two).
Proof.
  apply (plane_colors_distinct_iff two_by_two f0); vm_compute; reflexivity.
Defined.


End EncoderInvariants.

(** ** The documents the decoder accepts *)

Section DecoderInvariants.
Import Float64 Examples Documents MoreNotions Ui.

(** X6: when the decoder returns, the canvas has the height and the width
    of the document (both non-negative), and a cell that no vector of the
    document addresses (negative subscripts counted from the end) holds
    four zero bytes. *)
Theorem untouched_cells_stay_blank (data : ccvi) (canvas : ndarray) (w h : Z)
  (planes : list plane) :
  replay data = Ok canvas ->
  ccvi_width data = Some w -> ccvi_height data = Some h ->
  ccvi_planes data = Some planes ->
  0 <= w /\ 0 <= h /\
  rows canvas = Z.to_nat h /\ cols canvas = Z.to_nat w /\
  forall yx,
    (forall pl vectors v, pl ∈ planes -> plane_vectors pl = Some vectors ->
       v ∈ vectors -> target canvas v <> Some yx) ->
    at_index canvas yx = zero_cell.
Proof.
  intros Hreplay Hw Hh Hplanes. unfold replay in Hreplay.
  rewrite Hw, Hh, Hplanes in Hreplay. simpl in Hreplay.
  apply bind_Ok in Hreplay as (c0 & (Hh0 & Hw0 & ->)%zeros_Ok & Hloop).
  simpl in Hloop.
  destruct (write_planes_shape _ _ _ Hloop) as [Hr Hc]. simpl in Hr, Hc.
  split; [done|]. split; [done|]. split; [done|]. split; [done|].
  intros yx Hother.
  rewrite (write_planes_other _ _ _ yx Hloop); [done|].
  intros pl vectors v Hpl Hvs Hv.
  rewrite <- (target_same_shape _ canvas) by done. by eapply Hother.
Qed.

Lemma untouched_cells_stay_blank_witness :
  let canvas := the_canvas (replay negative_x) in
  0 <= 2 /\ 0 <= 1 /\
  rows canvas = Z.to_nat 1 /\ cols canvas = Z.to_nat 2 /\
  forall yx,
    (forall pl vectors v,
       pl ∈ default [] (ccvi_planes negative_x) ->
       plane_vectors pl = Some vectors ->
       v ∈ vectors -> target canvas v <> Some yx) ->
    at_index canvas yx = zero_cell.
Proof.
  apply (untouched_cells_stay_blank negative_x (the_canvas (replay negative_x)) 2 1
           (default [] (ccvi_planes negative_x))); reflexivity.
Defined.

Lemma index_defined (n : nat) (i : Z) :
  - Z.of_nat n <= i < Z.of_nat n -> exists k, index n i = Ok k.
Proof.
  intros Hi. unfold index. destruct (decide (0 <= i < Z.of_nat n)); [by eexists|].
  rewrite decide_True by lia. by eexists.
Qed.

Lemma index_Ok_range (n : nat) (i : Z) (k : nat) :
  index n i = Ok k -> - Z.of_nat n <= i < Z.of_nat n.
Proof. intros Hi%index_Ok. lia. Qed.

Lemma broadcast3_defined (color : list byte) :
  length color = 1%nat \/ length color = 3%nat -> exists c, broadcast3 color = Ok c.
Proof.
  destruct color as [|c1 [|c2 [|c3 [|c4 color]]]]; simpl; intros [?|?];
    try lia; by eexists.
Qed.

Lemma to_uint8_defined (n : Z) : 0 <= n <= 255 -> exists v, to_uint8 n = Ok v.
Proof.
  intros Hn. unfold to_uint8. rewrite decide_True by lia.
  destruct (Byte.of_N (Z.to_N n)) as [v|] eqn:Hv; [by eexists|].
  apply Byte.of_N_None_iff in Hv. lia.
Qed.

Lemma write_vector_accepts (h w : Z) (color : list byte) (canvas : ndarray)
  (vec : vector) :
  same_shape h w canvas -> 0 <= h -> 0 <= w ->
  (exists canvas', write_vector color canvas vec = Ok canvas') <->
  accepted_vector h w vec /\ (length color = 1%nat \/ length color = 3%nat).
Proof.
  intros [Hr Hc] Hh Hw. split.
  - intros (canvas' & Hok). apply write_vector_Ok in Hok
      as (x & y & i & j & c & a & n & v & Hx & Hy & Hi & Hj & Hb & Ha & Hn & Hv & _).
    apply index_Ok_range in Hi, Hj. rewrite Hr in Hi. rewrite Hc in Hj.
    apply to_uint8_Ok in Hv. pose proof (u8_range v).
    unfold Py.int in Hn.
    destruct (to_int (mul a (of_int 255))) as [n'|] eqn:Hn'; [|done].
    injection Hn as ->.
    split; [|by eapply broadcast3_Ok].
    exists x, y, a, n. repeat split; try done; lia.
  - intros [(x & y & a & n & Hx & Hy & Hyr & Hxr & Ha & Hn & Hnr) Hcolor].
    destruct (index_defined (rows canvas) y) as (i & Hi); [rewrite Hr; lia|].
    destruct (index_defined (cols canvas) x) as (j & Hj); [rewrite Hc; lia|].
    destruct (broadcast3_defined color Hcolor) as (c & Hb).
    destruct (to_uint8_defined n Hnr) as (v & Hv).
    unfold write_vector, Py.int. rewrite Hx, Hy. cbn [getitem Py.bind].
    rewrite Hi, Hj. cbn [Py.bind]. rewrite Hb, Ha. cbn [getitem Py.bind].
    rewrite Hn. cbn [Py.bind]. rewrite Hv. cbn [Py.bind]. by eexists.
Qed.

Lemma write_vectors_accepts (h w : Z) (color : list byte) (canvas : ndarray)
  (vectors : list vector) :
  same_shape h w canvas -> 0 <= h -> 0 <= w ->
  (exists canvas', for_each (write_vector color) canvas vectors = Ok canvas') <->
  Forall (accepted_vector h w) vectors /\
  (vectors = [] \/ length color = 1%nat \/ length color = 3%nat).
Proof.
  intros Hshape Hh Hw. revert canvas Hshape.
  induction vectors as [|vec vectors IH]; intros canvas Hshape.
  - split; [intros _; split; [constructor|by left]|intros _; by eexists].
  - simpl. split.
    + intros (canvas' & (c1 & Hvec & Hrest)%bind_Ok).
      destruct (proj1 (write_vector_accepts h w color canvas vec Hshape Hh Hw))
        as [Hacc Hcolor]; [by eexists|].
      destruct (proj1 (IH c1 (write_vector_same_shape _ _ _ _ _ _ Hshape Hvec)))
        as [Hall _]; [by eexists|].
      split; [by constructor|by right].
    + intros [[Hacc Hall]%Forall_cons [?|Hcolor]]; [done|].
      destruct (proj2 (write_vector_accepts h w color canvas vec Hshape Hh Hw))
        as (c1 & Hvec); [done|].
      rewrite Hvec. simpl.
      apply (IH c1 (write_vector_same_shape _ _ _ _ _ _ Hshape Hvec)).
      split; [done|by right].
Qed.

Lemma write_planes_accepts (h w : Z) (canvas : ndarray) (planes : list plane) :
  same_shape h w canvas -> 0 <= h -> 0 <= w ->
  (exists canvas', for_each write_plane canvas planes = Ok canvas') <->
  Forall (accepted_plane h w) planes.
Proof.
  intros Hshape Hh Hw. revert canvas Hshape.
  induction planes as [|pl planes IH]; intros canvas Hshape.
  - split; [intros _; constructor|intros _; by eexists].
  - simpl. split.
    + intros (canvas' & (c1 & Hpl & Hrest)%bind_Ok).
      pose proof (write_plane_same_shape _ _ _ _ _ Hshape Hpl) as Hshape1.
      constructor; [|apply (IH c1 Hshape1); by eexists].
      unfold write_plane in Hpl.
      apply bind_Ok in Hpl as (color & Hcolor & (vectors & Hvs & Hloop)%bind_Ok).
      destruct (proj1 (write_vectors_accepts h w color canvas vectors Hshape Hh Hw))
        as [Hall Harity]; [by eexists|].
      exists color, vectors.
      destruct (plane_color pl), (plane_vectors pl); simplify_eq/=. done.
    + intros [(color & vectors & Hcolor & Hvs & Hall & Harity) Hrest]%Forall_cons.
      destruct (proj2 (write_vectors_accepts h w color canvas vectors Hshape Hh Hw))
        as (c1 & Hloop); [done|].
      assert (Hpl : write_plane canvas pl = Ok c1)
        by (unfold write_plane; rewrite Hcolor, Hvs; done).
      rewrite Hpl. simpl.
      apply (IH c1 (write_plane_same_shape _ _ _ _ _ Hshape Hpl)). done.
Qed.

(** X7: the decoder returns an image only on an accepted document:
    [width], [height] and [planes] are present, the sizes are not
    negative, every plane has [color] and [vectors], every vector has
    [x], [y] and [alpha] with [-width <= x < width], [-height <= y <
    height] and [int(alpha * 255)] defined and in [[0, 255]], and the
    colour of a plane with at least one vector has one or three
    elements. On a document that fails one of these it raises. *)
Theorem decode_returns_only_if_accepted (data : ccvi) (out : extension * image) :
  convert_from_ccvi data = Ok out -> accepted data.
Proof.
  unfold convert_from_ccvi, replay, accepted.
  intros (canvas & Hreplay & _)%bind_Ok.
  apply bind_Ok in Hreplay as (w & Hw & (h & Hh & (c0 & Hzeros &
    (planes & Hplanes & Hloop)%bind_Ok)%bind_Ok)%bind_Ok).
  apply zeros_Ok in Hzeros as (Hh0 & Hw0 & ->).
  exists w, h, planes.
  destruct (ccvi_width data), (ccvi_height data), (ccvi_planes data);
    simplify_eq/=.
  repeat split; try done.
  apply (write_planes_accepts h w
           (Ndarray (Z.to_nat h) (Z.to_nat w) (fun _ _ => zero_cell)));
    [done..|by eexists].
Qed.

Lemma decode_returns_only_if_accepted_witness : accepted negative_x.
Proof.
  apply (decode_returns_only_if_accepted negative_x
           (select_format (the_canvas (replay negative_x)))).
  reflexivity.
Defined.

End DecoderInvariants.

(** ** Encoding and decoding again, at any margin *)

Section LossyRoundTrip.
Import Float64 Examples Documents MoreNotions Ui.

Lemma target_sample (arr canvas : ndarray) (yx : nat * nat) :
  shape_of arr canvas -> (yx.1 < rows arr)%nat -> (yx.2 < cols arr)%nat ->
  target canvas (sample arr yx) = Some yx.
Proof.
  intros [Hr Hc] Hy Hx. unfold target, sample. cbn [vec_x vec_y].
  rewrite Hr, Hc, !index_in_range by done. by destruct yx.
Qed.

Lemma write_sample_blank (arr canvas : ndarray) (color : rgba) (yx : nat * nat) :
  shape_of arr canvas ->
  yx ∈ argwhere arr color ->
  exists canvas',
    write_vector (rgb3 color) canvas (sample arr yx) = Ok canvas' /\
    shape_of arr canvas' /\
    restored arr canvas' yx /\
    (forall other, restored arr canvas other -> restored arr canvas' other) /\
    (forall other, restored_or_blank arr canvas other ->
                   restored_or_blank arr canvas' other).
Proof.
  intros Hshape Hyx.
  destruct (write_sample arr canvas color yx Hshape Hyx)
    as (canvas' & Hok & Hshape' & Hrestored & Hkeep).
  exists canvas'. do 4 (split; [done|]).
  intros other Hother. destruct (decide (other = yx)) as [->|Hne]; [by left|].
  unfold restored_or_blank.
  rewrite (write_vector_other _ _ _ _ other Hok); [done|].
  apply elem_of_argwhere in Hyx as (Hy & Hx & _).
  rewrite target_sample by done. congruence.
Qed.

Lemma write_samples_blank (arr canvas : ndarray) (color : rgba) (l : list (nat * nat)) :
  shape_of arr canvas ->
  l ⊆ argwhere arr color ->
  exists canvas',
    for_each (write_vector (rgb3 color)) canvas (sample arr <$> l) = Ok canvas' /\
    shape_of arr canvas' /\
    (forall yx, yx ∈ l -> restored arr canvas' yx) /\
    (forall other, restored arr canvas other -> restored arr canvas' other) /\
    (forall other, restored_or_blank arr canvas other ->
                   restored_or_blank arr canvas' other).
Proof.
  revert canvas. induction l as [|yx l IH]; intros canvas Hshape Hsub; csimpl.
  - exists canvas. do 2 (split; [done|]). split; [|done].
    by intros yx ?%elem_of_nil.
  - destruct (write_sample_blank arr canvas color yx Hshape)
      as (c1 & -> & Hs1 & Hyx & Hkeep1 & Hblank1); [apply Hsub; left|].
    cbn [Py.bind]. destruct (IH c1 Hs1) as (c2 & -> & Hs2 & Hl & Hkeep2 & Hblank2).
    { intros k Hk. apply Hsub. by right. }
    exists c2. do 2 (split; [done|]). split; [|split].
    + intros k [->|Hk]%elem_of_cons; [by apply Hkeep2|by apply Hl].
    + intros other Hother. by apply Hkeep2, Hkeep1.
    + intros other Hother. by apply Hblank2, Hblank1.
Qed.

Lemma write_produced_planes (arr : ndarray) (m : float) (canvas : ndarray)
  (colors : list rgba) (planes : list plane) :
  shape_of arr canvas ->
  Forall2 (produced arr m) colors planes ->
  exists canvas',
    for_each write_plane canvas planes = Ok canvas' /\
    shape_of arr canvas' /\
    (forall pl vectors v, pl ∈ planes -> plane_vectors pl = Some vectors ->
       v ∈ vectors ->
       exists yx, v = sample arr yx /\ (yx.1 < rows arr)%nat /\
                  (yx.2 < cols arr)%nat /\ restored arr canvas' yx) /\
    (forall other, restored arr canvas other -> restored arr canvas' other) /\
    (forall other, restored_or_blank arr canvas other ->
                   restored_or_blank arr canvas' other).
Proof.
  intros Hshape Hplanes. revert canvas Hshape.
  induction Hplanes as [|color pl colors planes (_ & nv & _ & ->) _ IH];
    intros canvas Hshape.
  - exists canvas. do 2 (split; [done|]). split; [|done].
    by intros pl vectors v ?%elem_of_nil.
  - cbn [for_each]. unfold write_plane at 1, plane_for.
    cbn [plane_color plane_vectors getitem Py.bind].
    set (l := slice_step (stride (length (argwhere arr color)) nv) (argwhere arr color)).
    assert (Hsub : l ⊆ argwhere arr color)
      by (intros yx Hyx; eapply elem_of_sublist; [exact Hyx|apply slice_step_sublist]).
    destruct (write_samples_blank arr canvas color l Hshape Hsub)
      as (c1 & -> & Hs1 & Hl & Hkeep1 & Hblank1).
    cbn [Py.bind].
    destruct (IH c1 Hs1) as (c2 & -> & Hs2 & Hrest & Hkeep2 & Hblank2).
    exists c2. do 2 (split; [done|]). split; [|split].
    + intros pl vectors v [->|Hpl]%elem_of_cons Hvs Hv.
      * cbn [plane_vectors] in Hvs. injection Hvs as <-.
        apply list_elem_of_fmap in Hv as (yx & -> & Hyx).
        exists yx. split; [done|].
        pose proof (Hsub yx Hyx) as (Hy & Hx & _)%elem_of_argwhere.
        do 2 (split; [done|]). by apply Hkeep2, Hl.
      * by eapply Hrest.
    + intros other Hother. by apply Hkeep2, Hkeep1.
    + intros other Hother. by apply Hblank2, Hblank1.
Qed.

(** X8: decoding what the encoder returns, at any margin of [[0, 1]]:
    both functions return, the image has the size of the array, every
    pixel is either the original cell or blank (all four bytes zero),
    and the pixel of every stored vector is the original cell exactly.
    The array has fewer than [2^53] cells. *)
Theorem decode_of_encode (arr : ndarray) (m : float) :
  in_unit_interval m = true ->
  Z.of_nat (rows arr * cols arr) < 2 ^ 53 ->
  exists data planes ext img,
    convert_to_ccvi arr m = Ok data /\
    ccvi_planes data = Some planes /\
    convert_from_ccvi data = Ok (ext, img) /\
    image_size img = (rows arr, cols arr) /\
    (forall y x, (y < rows arr)%nat -> (x < cols arr)%nat ->
       image_pixel img y x = cell arr y x \/ image_pixel img y x = zero_cell) /\
    (forall pl vectors v, pl ∈ planes -> plane_vectors pl = Some vectors ->
       v ∈ vectors ->
       exists y x, v = sample arr (y, x) /\
                   (y < rows arr)%nat /\ (x < cols arr)%nat /\
                   image_pixel img y x = cell arr y x).
Proof.
  intros Hm Hsize.
  destruct (convert_to_ccvi_returns arr m Hm Hsize) as (data & Hdata).
  exists data. rewrite Hdata.
  apply convert_to_ccvi_Ok in Hdata as (planes & -> & Hplanes).
  destruct (write_produced_planes arr m
              (Ndarray (rows arr) (cols arr) (fun _ _ => zero_cell))
              (unique (reshape arr)) planes)
    as (canvas & Hloop & [Hr Hc] & Hsampled & _ & Hblank); [done..|].
  exists planes, (select_format canvas).1, (select_format canvas).2.
  split; [done|]. split; [done|]. split.
  { unfold convert_from_ccvi, replay, zeros.
    cbn [ccvi_width ccvi_height ccvi_planes getitem Py.bind].
    rewrite decide_True by lia. cbn [Py.bind]. rewrite !Nat2Z.id, Hloop.
    cbn [Py.bind]. by destruct (select_format canvas). }
  split; [rewrite select_format_size; congruence|]. split.
  - intros y x Hy Hx. rewrite select_format_pixel by lia.
    apply (Hblank (y, x)). by right.
  - intros pl vectors v Hpl Hvs Hv.
    destruct (Hsampled pl vectors v Hpl Hvs Hv) as ([y x] & -> & Hy & Hx & Hrest).
    exists y, x. do 3 (split; [done|]). simpl in Hy, Hx.
    rewrite select_format_pixel by lia. exact Hrest.
Qed.

Lemma decode_of_encode_witness :
  exists data planes ext img,
    convert_to_ccvi five_in_a_row fhalf = Ok data /\
    ccvi_planes data = Some planes /\
    convert_from_ccvi data = Ok (ext, img) /\
    image_size img = (rows five_in_a_row, cols five_in_a_row) /\
    (forall y x, (y < rows five_in_a_row)%nat -> (x < cols five_in_a_row)%nat ->
       image_pixel img y x = cell five_in_a_row y x \/
       image_pixel img y x = zero_cell) /\
    (forall pl vectors v, pl ∈ planes -> plane_vectors pl = Some vectors ->
       v ∈ vectors ->
       exists y x, v = sample five_in_a_row (y, x) /\
                   (y < rows five_in_a_row)%nat /\ (x < cols five_in_a_row)%nat /\
                   image_pixel img y x = cell five_in_a_row y x).
Proof.
  apply (decode_of_encode five_in_a_row fhalf); vm_compute; reflexivity.
Defined.

End LossyRoundTrip.

(** ** The slider of the converter window *)

Section Slider.
Import Float64 Examples Documents MoreNotions Ui.

Lemma slider_margins_checked :
  forallb (fun val => in_unit_interval (update_slider_label val).1) (seqZ 0 101) = true.
Proof. vm_compute. reflexivity. Qed.

(** X9: the slider of the converter window, whose range is 0..100, sets
    a margin [val / 100.0] that lies between 0.0 and 1.0, and encoding
    with that margin returns a document; the two ends of the slider give
    exactly 0.0 and 1.0. The array has fewer than [2^53] cells. *)
Theorem slider_margin_encodes (val : Z) (arr : ndarray) :
  0 <= val <= 100 ->
  Z.of_nat (rows arr * cols arr) < 2 ^ 53 ->
  in_unit_interval (update_slider_label val).1 = true /\
  (exists data, convert_to_ccvi arr (update_slider_label val).1 = Ok data) /\
  (update_slider_label 0).1 = f0 /\
  (update_slider_label 100).1 = f1.
Proof.
  intros Hval Hsize.
  assert (Hin : in_unit_interval (update_slider_label val).1 = true).
  { pose proof slider_margins_checked as Hall. rewrite forallb_forall in Hall.
    apply Hall, list_elem_of_In, elem_of_seqZ. lia. }
  split; [done|]. split; [by apply convert_to_ccvi_returns|].
  split; vm_compute; reflexivity.
Qed.

Lemma slider_margin_encodes_witness :
  in_unit_interval (update_slider_label 10).1 = true /\
  (exists data, convert_to_ccvi two_by_two (update_slider_label 10).1 = Ok data) /\
  (update_slider_label 0).1 = f0 /\
  (update_slider_label 100).1 = f1.
Proof.
  apply (slider_margin_encodes 10 two_by_two); [lia|vm_compute; reflexivity].
Defined.

End Slider.

(** ** The info label of the viewer *)

Section ViewerInfo.
Import Float64 Examples Documents MoreNotions Ui.

Lemma total_vectors_produced (arr : ndarray) (m : float)
  (colors : list rgba) (planes : list plane) :
  Forall2 (produced arr m) colors planes ->
  exists n, total_vectors planes = Ok n /\
            (length planes <= n <= length (colors ≫= argwhere arr))%nat.
Proof.
  induction 1 as [|color pl colors planes Hpl _ (n & Hn & Hle)]; csimpl.
  - exists 0%nat. split; [done|lia].
  - apply produced_stride_bounds in Hpl as (nv & vectors & _ & -> & Hlen & _).
    cbn [getitem Py.bind]. rewrite Hn. cbn [Py.bind].
    eexists. split; [done|]. rewrite length_app. cbn zeta in Hlen. lia.
Qed.

Lemma total_vectors_full (arr : ndarray) (colors : list rgba) (planes : list plane) :
  Forall2 (fun color pl =>
    pl = Plane (Some (rgb3 color)) (Some (sample arr <$> argwhere arr color)))
    colors planes ->
  total_vectors planes = Ok (length (colors ≫= argwhere arr)).
Proof.
  induction 1 as [|color pl colors planes -> _ IH]; csimpl; [done|].
  rewrite IH. cbn [Py.bind]. by rewrite length_app, length_fmap.
Qed.

Lemma total_vectors_single (arr : ndarray) (colors : list rgba) (planes : list plane) :
  Forall2 (fun color pl =>
    exists first,
      head (argwhere arr color) = Some first /\
      pl = Plane (Some (rgb3 color)) (Some [sample arr first]))
    colors planes ->
  total_vectors planes = Ok (length planes).
Proof.
  induction 1 as [|color pl colors planes (first & _ & ->) _ IH]; csimpl; [done|].
  by rewrite IH.
Qed.

Lemma masks_partition (arr : ndarray) :
  alpha_determined_by_rgb arr ->
  unique (reshape arr) ≫= argwhere arr ≡ₚ indices (rows arr) (cols arr).
Proof.
  intros Halpha. apply NoDup_Permutation.
  - apply NoDup_bind.
    + intros c1 c2 yx Hc1 Hc2 (_ & _ & H1)%elem_of_argwhere (_ & _ & H2)%elem_of_argwhere.
      apply Halpha; [by apply (elem_of_unique c1 (reshape arr))
                    |by apply (elem_of_unique c2 (reshape arr))|congruence].
    + intros c _. apply row_major_sorted_NoDup, argwhere_sorted.
    + apply unique_NoDup.
  - apply row_major_sorted_NoDup, indices_sorted.
  - intros yx. rewrite list_elem_of_bind, elem_of_indices. split.
    + by intros (c & (Hy & Hx & _)%elem_of_argwhere & _).
    + intros [Hy Hx]. exists (at_index arr yx). split.
      * by apply argwhere_own_color.
      * apply elem_of_unique, elem_of_reshape. by exists yx.
Qed.

Lemma alpha_determined_by_rgb_Forall (arr : ndarray) :
  alpha_determined_by_rgb arr <->
  Forall (fun p => Forall (fun q => rgb3 p = rgb3 q -> p = q) (reshape arr))
    (reshape arr).
Proof.
  unfold alpha_determined_by_rgb. rewrite Forall_forall. split.
  - intros H p Hp. apply Forall_forall. intros q Hq. by apply H.
  - intros H p q Hp Hq. specialize (H p Hp). rewrite Forall_forall in H.
    by apply H.
Qed.

#[global] Instance alpha_determined_by_rgb_dec (arr : ndarray) :
  Decision (alpha_determined_by_rgb arr) :=
  match decide (Forall (fun p =>
          Forall (fun q => rgb3 p = rgb3 q -> p = q) (reshape arr)) (reshape arr)) with
  | left H => left (proj2 (alpha_determined_by_rgb_Forall arr) H)
  | right H => right (fun H' => H (proj1 (alpha_determined_by_rgb_Forall arr) H'))
  end.

(** X10: what the viewer's info label shows for a document written by the
    encoder: the width and the height of the array, as many planes as
    the array has distinct RGBA rows, the margin that was given, and a
    total of vectors that is at least the number of planes. The margin
    is a number of [[0, 1]] and the array has fewer than [2^53]
    cells. *)
Theorem info_of_encoded (arr : ndarray) (m : float) :
  in_unit_interval m = true ->
  Z.of_nat (rows arr * cols arr) < 2 ^ 53 ->
  exists data shown,
    convert_to_ccvi arr m = Ok data /\
    update_info data = Ok shown /\
    info_width shown = Z.of_nat (cols arr) /\
    info_height shown = Z.of_nat (rows arr) /\
    info_planes shown = length (unique (reshape arr)) /\
    info_margin shown = Some m /\
    (info_planes shown <= info_vectors shown)%nat.
Proof.
  intros Hm Hsize.
  destruct (convert_to_ccvi_returns arr m Hm Hsize) as (data & Hdata).
  exists data. rewrite Hdata.
  apply convert_to_ccvi_Ok in Hdata as (planes & -> & Hplanes).
  destruct (total_vectors_produced arr m _ _ Hplanes) as (n & Hn & Hle).
  unfold update_info. cbn [ccvi_planes ccvi_width ccvi_height getitem Py.bind].
  rewrite Hn. cbn [Py.bind]. eexists. split; [done|]. split; [done|].
  cbn [info_width info_height info_planes info_vectors info_margin ccvi_margin_error].
  do 2 (split; [done|]). split; [symmetry; by eapply Forall2_length|].
  split; [done|lia].
Qed.

Lemma info_of_encoded_witness :
  exists data shown,
    convert_to_ccvi five_in_a_row fhalf = Ok data /\
    update_info data = Ok shown /\
    info_width shown = Z.of_nat (cols five_in_a_row) /\
    info_height shown = Z.of_nat (rows five_in_a_row) /\
    info_planes shown = length (unique (reshape five_in_a_row)) /\
    info_margin shown = Some fhalf /\
    (info_planes shown <= info_vectors shown)%nat.
Proof.
  apply (info_of_encoded five_in_a_row fhalf); vm_compute; reflexivity.
Defined.

(** X11: when no RGB value occurs in the array under two alpha values,
    the total of vectors the viewer shows for the encoded document is at
    most the number of pixels. The margin is a number of [[0, 1]] and
    the array has fewer than [2^53] cells. *)
Theorem vectors_at_most_cells (arr : ndarray) (m : float) :
  in_unit_interval m = true ->
  Z.of_nat (rows arr * cols arr) < 2 ^ 53 ->
  alpha_determined_by_rgb arr ->
  exists data shown,
    convert_to_ccvi arr m = Ok data /\
    update_info data = Ok shown /\
    (info_vectors shown <= rows arr * cols arr)%nat.
Proof.
  intros Hm Hsize Halpha.
  destruct (convert_to_ccvi_returns arr m Hm Hsize) as (data & Hdata).
  exists data. rewrite Hdata.
  apply convert_to_ccvi_Ok in Hdata as (planes & -> & Hplanes).
  destruct (total_vectors_produced arr m _ _ Hplanes) as (n & Hn & Hle).
  unfold update_info. cbn [ccvi_planes ccvi_width ccvi_height getitem Py.bind].
  rewrite Hn. cbn [Py.bind]. eexists. split; [done|]. split; [done|].
  cbn [info_vectors].
  rewrite (masks_partition arr Halpha), length_indices in Hle. lia.
Qed.

Lemma vectors_at_most_cells_witness :
  exists data shown,
    convert_to_ccvi two_by_two fhalf = Ok data /\
    update_info data = Ok shown /\
    (info_vectors shown <= rows two_by_two * cols two_by_two)%nat.
Proof.
  apply (vectors_at_most_cells two_by_two fhalf);
    [vm_compute; reflexivity|vm_compute; reflexivity|].
  apply (bool_decide_unpack _). vm_compute. exact I.
Defined.

(** X12: at [margin_error = 1.0] the total of vectors the viewer shows
    equals the number of planes: one vector per plane. The array has
    fewer than [2^53] cells. *)
Theorem one_vector_per_plane_at_full_error (arr : ndarray) :
  Z.of_nat (rows arr * cols arr) < 2 ^ 53 ->
  exists data shown,
    convert_to_ccvi arr f1 = Ok data /\ update_info data = Ok shown /\
    info_vectors shown = info_planes shown.
Proof.
  intros Hsize.
  destruct (convert_to_ccvi_full_error arr Hsize) as (planes & -> & Hplanes).
  eexists _, _. split; [reflexivity|]. unfold update_info.
  cbn [ccvi_planes ccvi_width ccvi_height getitem Py.bind].
  rewrite (total_vectors_single arr _ _ Hplanes). cbn [Py.bind].
  split; [reflexivity|]. done.
Qed.

Lemma one_vector_per_plane_at_full_error_witness :
  exists data shown,
    convert_to_ccvi two_by_two f1 = Ok data /\ update_info data = Ok shown /\
    info_vectors shown = info_planes shown.
Proof.
  apply (one_vector_per_plane_at_full_error two_by_two). vm_compute. reflexivity.
Defined.

(** X13: at [margin_error = 0.0], when no RGB value occurs in the array
    under two alpha values, the total of vectors the viewer shows equals
    the number of pixels. The array has fewer than [2^53] cells. *)
Theorem one_vector_per_cell_at_zero_error (arr : ndarray) :
  Z.of_nat (rows arr * cols arr) < 2 ^ 53 ->
  alpha_determined_by_rgb arr ->
  exists data shown,
    convert_to_ccvi arr f0 = Ok data /\ update_info data = Ok shown /\
    info_vectors shown = (rows arr * cols arr)%nat.
Proof.
  intros Hsize Halpha.
  destruct (convert_to_ccvi_zero_error arr Hsize) as (planes & -> & Hplanes).
  eexists _, _. split; [reflexivity|]. unfold update_info.
  cbn [ccvi_planes ccvi_width ccvi_height getitem Py.bind].
  rewrite (total_vectors_full arr (unique (reshape arr)) planes).
  2:{ eapply Forall2_impl; [exact Hplanes|]. by intros color pl (_ & _ & _ & ->). }
  cbn [Py.bind]. split; [reflexivity|].
  cbn [info_vectors]. by rewrite (masks_partition arr Halpha), length_indices.
Qed.

Lemma one_vector_per_cell_at_zero_error_witness :
  exists data shown,
    convert_to_ccvi two_by_two f0 = Ok data /\ update_info data = Ok shown /\
    info_vectors shown = (rows two_by_two * cols two_by_two)%nat.
Proof.
  apply (one_vector_per_cell_at_zero_error two_by_two); [vm_compute; reflexivity|].
  apply (bool_decide_unpack _). vm_compute. exact I.
Defined.

End ViewerInfo.

(** ** The format of the decoded image *)

Section SavedFormat.
Import Float64 Examples Documents MoreNotions Ui.

Lemma select_format_jpeg (canvas : ndarray) :
  (select_format canvas).1 = jpeg <-> any_alpha_below_255 canvas = false.
Proof. unfold select_format. by destruct (any_alpha_below_255 canvas). Qed.

Lemma no_alpha_below_255 (canvas : ndarray) :
  any_alpha_below_255 canvas = false <->
  forall y x, (y < rows canvas)%nat -> (x < cols canvas)%nat ->
    alpha (cell canvas y x) = "255"%byte.
Proof.
  pose proof (any_alpha_below_255_true canvas) as Hany. split.
  - intros Hfalse y x Hy Hx. apply u8_255.
    destruct (decide (255 <= u8 (alpha (cell canvas y x)))) as [|Hlt]; [done|].
    assert (any_alpha_below_255 canvas = true); [|congruence].
    apply Hany. exists y, x. split; [done|]. split; [done|]. lia.
  - intros Hall. destruct (any_alpha_below_255 canvas) eqn:E; [|done].
    destruct (proj1 Hany eq_refl) as (y & x & Hy & Hx & Hlt).
    rewrite (Hall y x Hy Hx) in Hlt. vm_compute in Hlt. done.
Qed.

(** X14: decoding what the encoder returns gives a JPEG exactly when
    every pixel of the array is opaque and is reproduced; otherwise (a
    pixel dropped by the sampling, or one that is not opaque) it gives a
    PNG. The margin is a number of [[0, 1]] and the array has fewer than
    [2^53] cells. *)
Theorem jpeg_iff_lossless_and_opaque (arr : ndarray) (m : float) :
  in_unit_interval m = true ->
  Z.of_nat (rows arr * cols arr) < 2 ^ 53 ->
  exists data ext img,
    convert_to_ccvi arr m = Ok data /\
    convert_from_ccvi data = Ok (ext, img) /\
    (ext = jpeg <->
     forall y x, (y < rows arr)%nat -> (x < cols arr)%nat ->
       image_pixel img y x = cell arr y x /\
       alpha (cell arr y x) = "255"%byte).
Proof.
  intros Hm Hsize.
  destruct (convert_to_ccvi_returns arr m Hm Hsize) as (data & Hdata).
  exists data. rewrite Hdata.
  apply convert_to_ccvi_Ok in Hdata as (planes & -> & Hplanes).
  destruct (write_produced_planes arr m
              (Ndarray (rows arr) (cols arr) (fun _ _ => zero_cell))
              (unique (reshape arr)) planes)
    as (canvas & Hloop & [Hr Hc] & _ & _ & Hblank); [done..|].
  exists (select_format canvas).1, (select_format canvas).2.
  split; [done|]. split.
  { unfold convert_from_ccvi, replay, zeros.
    cbn [ccvi_width ccvi_height ccvi_planes getitem Py.bind].
    rewrite decide_True by lia. cbn [Py.bind]. rewrite !Nat2Z.id, Hloop.
    cbn [Py.bind]. by destruct (select_format canvas). }
  rewrite select_format_jpeg, no_alpha_below_255, Hr, Hc. split.
  - intros Hall y x Hy Hx. rewrite select_format_pixel by lia.
    specialize (Hall y x Hy Hx).
    destruct (Hblank (y, x)) as [Hsame|Hzero]; [by right| |].
    + unfold at_index in Hsame. cbn [fst snd] in Hsame. by rewrite <- Hsame.
    + unfold at_index in Hzero. cbn [fst snd] in Hzero.
      rewrite Hzero in Hall. vm_compute in Hall. done.
  - intros Hall y x Hy Hx. destruct (Hall y x Hy Hx) as [Hpixel Halpha].
    rewrite select_format_pixel in Hpixel by lia. by rewrite Hpixel.
Qed.

Lemma jpeg_iff_lossless_and_opaque_witness :
  exists data ext img,
    convert_to_ccvi five_in_a_row fhalf = Ok data /\
    convert_from_ccvi data = Ok (ext, img) /\
    (ext = jpeg <->
     forall y x, (y < rows five_in_a_row)%nat -> (x < cols five_in_a_row)%nat ->
       image_pixel img y x = cell five_in_a_row y x /\
       alpha (cell five_in_a_row y x) = "255"%byte).
Proof.
  apply (jpeg_iff_lossless_and_opaque five_in_a_row fhalf); vm_compute; reflexivity.
Defined.

End SavedFormat.

(** ** The zoom factor and the animation phase of the viewer *)

Section ViewerState.
Import Float64 MoreNotions Ui.

Lemma zoom_states_closed :
  forallb (fun z => bool_decide (zoom_in z ∈ zoom_states) &&
                    bool_decide (zoom_out z ∈ zoom_states)) zoom_states = true.
Proof. vm_compute. reflexivity. Qed.

Lemma zoom_states_checked :
  forallb (fun z => leb f0_1 z && leb z f10 &&
                    match zoom_percent z with
                    | Ok p => (10 <=? p) && (p <=? 1000)
                    | Raise _ => false
                    end) zoom_states = true.
Proof. vm_compute. reflexivity. Qed.

Lemma zoom_after_in_states (presses : list button) :
  zoom_after presses ∈ zoom_states.
Proof.
  unfold zoom_after. induction presses as [|b presses IH] using rev_ind.
  - apply (bool_decide_unpack _). vm_compute. exact I.
  - rewrite foldl_app. cbn [foldl].
    pose proof zoom_states_closed as Hclosed. rewrite forallb_forall in Hclosed.
    apply list_elem_of_In, Hclosed, andb_prop in IH as [Hin Hout].
    destruct b; cbn [press].
    + by apply bool_decide_eq_true in Hin.
    + by apply bool_decide_eq_true in Hout.
    + apply (bool_decide_unpack _). vm_compute. exact I.
Qed.

(** X15: after any sequence of presses of Zoom In, Zoom Out and Reset,
    starting from 1.0, the zoom factor of the viewer is between 0.1 and
    10.0 and the percentage it shows is defined and between 10 and
    1000. *)
Theorem zoom_stays_in_range (presses : list button) :
  let z := zoom_after presses in
  leb f0_1 z = true /\ leb z f10 = true /\
  exists percent, zoom_percent z = Ok percent /\ 10 <= percent <= 1000.
Proof.
  intros z. pose proof (zoom_after_in_states presses) as Hz. fold z in Hz.
  pose proof zoom_states_checked as Hall. rewrite forallb_forall in Hall.
  apply list_elem_of_In, Hall in Hz.
  apply andb_prop in Hz as [[H1 H2]%andb_prop H3].
  split; [done|]. split; [done|].
  destruct (zoom_percent z) as [p|]; [|done].
  exists p. split; [done|]. lia.
Qed.

Lemma phase_period : phase_after 63 = f0.
Proof. vm_compute. reflexivity. Qed.

Lemma phases_checked :
  forallb (fun n => leb f0 (phase_after n) &&
                    leb (phase_after n) (mul (of_int 2) pi)) (seq 0 63) = true.
Proof. vm_compute. reflexivity. Qed.

Lemma phase_after_add (n k : nat) :
  phase_after (n + 63 * k) = phase_after n.
Proof.
  induction k as [|k IH]; [by rewrite Nat.mul_0_r, Nat.add_0_r|].
  replace (n + 63 * S k)%nat with ((n + 63 * k) + 63)%nat by lia.
  unfold phase_after in *. by rewrite Nat.iter_add, (phase_period : Nat.iter _ _ _ = _).
Qed.

(** X16: the animation phase of the viewer is back to its value every 63
    timer ticks, and it always lies between 0.0 and [2 * math.pi]. *)
Theorem animation_phase_cycles (frames : nat) :
  phase_after (frames + 63) = phase_after frames /\
  leb f0 (phase_after frames) = true /\
  leb (phase_after frames) (mul (of_int 2) pi) = true.
Proof.
  split.
  - by rewrite <- (phase_after_add (frames + 63) 0), <- (phase_after_add frames 1),
      Nat.mul_0_r, Nat.add_0_r, Nat.mul_1_r.
  - rewrite (Nat.div_mod_eq frames 63), Nat.add_comm, phase_after_add.
    pose proof (Nat.mod_upper_bound frames 63 ltac:(lia)) as Hlt.
    pose proof phases_checked as Hall. rewrite forallb_forall in Hall.
    specialize (Hall (frames `mod` 63)%nat).
    apply andb_prop, Hall, list_elem_of_In, elem_of_seq. lia.
Qed.

End ViewerState.
